(** * mcp-google-sheets: the tool layer of [server.py], embedded in Rocq

    The server maps each tool invocation onto a short sequence of calls to
    the Google Sheets and Drive client libraries.  The embedding keeps that
    shape:

    - values that travel to and from the remote service are JSON values
      ([json]), with Python's subscripting, [dict.get], [in] and iteration
      written out together with the exceptions they raise;
    - a tool is a computation over a [world] (the lifespan context, the log
      of remote calls issued so far, the lines printed so far) that ends in
      a returned value or in a raised exception;
    - the remote service is an arbitrary function from the history of calls
      and the current call to a response or an exception;
    - the start-up credential resolution runs over a file system, a finite
      map from paths to file contents. *)

From Stdlib Require Import ZArith String Ascii List DecimalString.
From stdpp Require Import base option list strings gmap.
Import ListNotations.
Local Open Scope Z_scope.
Local Open Scope string_scope.
Local Open Scope list_scope.
Local Set Warnings "-register-all".

(** ** Values *)

(** Python values that can be decoded from, or encoded to, JSON.  [JNull] is
    Python's [None].  An object keeps its keys in insertion order, as a
    Python dict does; lookups take the first binding of a key. *)
Inductive json : Type :=
| JNull
| JBool (b : bool)
| JInt (z : Z)
| JStr (s : string)
| JArr (items : list json)
| JObj (fields : list (string * json)).

(** Exceptions a tool body can meet.  All of them derive from Python's
    [Exception], so an [except Exception] clause catches every one. *)
Inductive exn : Type :=
| KeyError (key : string)
| IndexError
| TypeError
| AttributeError
| OSError (detail : string)
| RemoteError (detail : string).

Inductive result (A : Type) : Type :=
| Ok (a : A)
| Raise (e : exn).
Arguments Ok {A} a.
Arguments Raise {A} e.

Definition result_bind {A B : Type} (m : result A) (k : A -> result B) : result B :=
  match m with
  | Ok a => k a
  | Raise e => Raise e
  end.

Declare Scope result_scope.
Delimit Scope result_scope with res.
Notation "x <-- m ; k" := (result_bind m (fun x => k))
  (at level 20, m at level 100, k at level 200, only parsing) : result_scope.

(** ** Python primitives on JSON values *)

Fixpoint assoc (k : string) (o : list (string * json)) : option json :=
  match o with
  | [] => None
  | (k', v) :: rest => if String.eqb k' k then Some v else assoc k rest
  end.

(** [v[k]] with a string key. *)
Definition getitem (v : json) (k : string) : result json :=
  match v with
  | JObj o => match assoc k o with
              | Some x => Ok x
              | None => Raise (KeyError k)
              end
  | _ => Raise TypeError
  end.

(** [v[i]] with an integer index (only non-negative indices occur). *)
Definition getindex (v : json) (i : nat) : result json :=
  match v with
  | JArr l => match nth_error l i with
              | Some x => Ok x
              | None => Raise IndexError
              end
  | JStr s => match String.get i s with
              | Some c => Ok (JStr (String c EmptyString))
              | None => Raise IndexError
              end
  | JObj _ => Raise (KeyError "0")
  | _ => Raise TypeError
  end.

(** [v.get(k, d)]: only dicts have the method. *)
Definition py_get (v : json) (k : string) (d : json) : result json :=
  match v with
  | JObj o => Ok (match assoc k o with Some x => x | None => d end)
  | _ => Raise AttributeError
  end.

(** [v == s] for a Python [str] [s]: a string equals only a string with the
    same characters. *)
Definition py_eq_str (v : json) (s : string) : bool :=
  match v with
  | JStr t => String.eqb t s
  | _ => false
  end.

Fixpoint chars (s : string) : list json :=
  match s with
  | EmptyString => []
  | String c rest => JStr (String c EmptyString) :: chars rest
  end.

(** The items a [for] loop or a comprehension visits. *)
Definition py_iter (v : json) : result (list json) :=
  match v with
  | JArr l => Ok l
  | JObj o => Ok (map (fun kv => JStr (fst kv)) o)
  | JStr s => Ok (chars s)
  | _ => Raise TypeError
  end.

Definition is_substring (k s : string) : bool :=
  match String.index 0 k s with
  | Some _ => true
  | None => false
  end.

(** [k in v] for a string [k]. *)
Definition py_in (k : string) (v : json) : result bool :=
  match v with
  | JObj o => Ok (match assoc k o with Some _ => true | None => false end)
  | JArr l => Ok (existsb (fun x => py_eq_str x k) l)
  | JStr s => Ok (is_substring k s)
  | _ => Raise TypeError
  end.

(** [if o:] for an [Optional[str]]: the branch is taken, with the string
    at hand, when [o] is neither [None] nor the empty string. *)
Definition nonempty (o : option string) : option string :=
  match o with
  | Some s => if String.eqb s "" then None else Some s
  | None => None
  end.

(** [sep.join(v)]: every item must be a string. *)
Fixpoint join_strs (sep : string) (l : list json) : result string :=
  match l with
  | [] => Ok ""
  | JStr s :: rest =>
      match rest with
      | [] => Ok s
      | _ => r <-- join_strs sep rest; Ok (s +:+ sep +:+ r)
      end%res
  | _ :: _ => Raise TypeError
  end.

Definition py_join (sep : string) (v : json) : result string :=
  (l <-- py_iter v; join_strs sep l)%res.

(** A comprehension [[f x for x in l]]. *)
Fixpoint map_result {A B : Type} (f : A -> result B) (l : list A) : result (list B) :=
  match l with
  | [] => Ok []
  | x :: rest => (y <-- f x; ys <-- map_result f rest; Ok (y :: ys))%res
  end.

(** ** The sheet-name lookup *)

(** [s['properties']['title']] and [s['properties']['sheetId']]. *)
Definition title_of (s : json) : result json :=
  (p <-- getitem s "properties"; getitem p "title")%res.

Definition sheet_id_of (s : json) : result json :=
  (p <-- getitem s "properties"; getitem p "sheetId")%res.

(** The loop
<<
    sheet_id = None
    for s in spreadsheet['sheets']:
        if s['properties']['title'] == sheet:
            sheet_id = s['properties']['sheetId']
            break
>>
    appears verbatim in [add_rows], [add_columns], [copy_sheet] and
    [rename_sheet]; it is embedded once. *)
Fixpoint scan_sheets (sheets : list json) (sheet : string) : result json :=
  match sheets with
  | [] => Ok JNull
  | s :: rest =>
      (t <-- title_of s;
       if py_eq_str t sheet then sheet_id_of s else scan_sheets rest sheet)%res
  end.

Definition find_sheet_id (spreadsheet : json) (sheet : string) : result json :=
  (ss <-- getitem spreadsheet "sheets";
   l <-- py_iter ss;
   scan_sheets l sheet)%res.

Definition is_none (v : json) : bool :=
  match v with
  | JNull => true
  | _ => false
  end.

(** ** The session and the remote service *)

(** Client handles are opaque: the tools only pass them on. *)
Definition handle := nat.

Record SpreadsheetContext : Type := {
  sheets_service : handle;
  drive_service : handle;
  folder_id : option string
}.

(** One request to the Sheets or Drive API, named after the method chain
    that builds it, with the keyword arguments the source passes. *)
Inductive call : Type :=
| SpreadsheetsGet (spreadsheetId : string)
| SpreadsheetsCreate (body : json) (fields : string)
| SpreadsheetsBatchUpdate (spreadsheetId : string) (body : json)
| ValuesGet (spreadsheetId range : string)
| ValuesUpdate (spreadsheetId range valueInputOption : string) (body : json)
| ValuesBatchUpdate (spreadsheetId : string) (body : json)
| SheetsCopyTo (spreadsheetId : string) (sheetId : json) (body : json)
| FilesGet (fileId : json) (fields : string)
| FilesUpdate (fileId : json) (addParents removeParents fields : string)
| FilesList (q spaces fields orderBy : string).

(** A request together with the client handle it was issued on. *)
Record event : Type := Ev { ev_handle : handle; ev_call : call }.

(** Lines written by [print]; the interpolated values are kept as they
    are instead of being formatted. *)
Inductive line : Type :=
| LCreated (spreadsheet_id : json)
| LMoved (folder : string)
| LMoveWarning (e : exn)
| LSearchFolder (folder : string)
| LSearchMyDrive.

Record world : Type := World {
  session : SpreadsheetContext;
  calls : list event;
  stdout : list line
}.

(** The remote service answers a request with a decoded JSON body or with
    an exception; the answer may depend on everything requested before. *)
Definition remote := list event -> handle -> call -> result json.

(** ** Tool computations *)

Definition tool (A : Type) : Type := world -> result A * world.

Definition ret {A : Type} (a : A) : tool A := fun w => (Ok a, w).

Definition bind {A B : Type} (m : tool A) (k : A -> tool B) : tool B :=
  fun w => match m w with
           | (Ok a, w') => k a w'
           | (Raise e, w') => (Raise e, w')
           end.

(** A pure Python expression, which may raise. *)
Definition eval {A : Type} (r : result A) : tool A := fun w => (r, w).

(** [try: body except Exception as e: handler(e)] *)
Definition try_except {A : Type} (body : tool A) (handler : exn -> tool A) : tool A :=
  fun w => match body w with
           | (Ok a, w') => (Ok a, w')
           | (Raise e, w') => handler e w'
           end.

(** [ctx.request_context.lifespan_context.<field>] *)
Definition lifespan_context {A : Type} (field : SpreadsheetContext -> A) : tool A :=
  fun w => (Ok (field (session w)), w).

Definition print (l : line) : tool unit :=
  fun w => (Ok tt, World (session w) (calls w) (stdout w ++ [l])).

Declare Scope tool_scope.
Delimit Scope tool_scope with tool.
Notation "x <- m ;; k" := (bind m (fun x => k))
  (at level 100, m at next level, k at level 200, right associativity) : tool_scope.
Notation "m ;; k" := (bind m (fun _ => k))
  (at level 100, k at level 200, right associativity) : tool_scope.

Section Tools.

Variable api : remote.

(** [json.dumps(_, indent=2)] of the standard library. *)
Variable json_dumps : json -> string.

(** Whether the framework's server object [mcp] has a method
    [get_lifespan_context].  The tools do not need it: they read the context
    from their [ctx] argument.  The resource [get_spreadsheet_info] calls
    it. *)
Variable has_get_lifespan_context : bool.

(** [request.execute()] on the client [h]. *)
Definition execute (h : handle) (c : call) : tool json :=
  fun w => (api (calls w) h c,
            World (session w) (calls w ++ [Ev h c]) (stdout w)).

Local Open Scope tool_scope.

Definition qualified (sheet range : string) : string := sheet +:+ "!" +:+ range.

Definition get_sheet_data (spreadsheet_id sheet : string) (range : option string)
  : tool json :=
  sheets <- lifespan_context sheets_service ;;
  let full_range :=
    match nonempty range with
    | Some r => qualified sheet r
    | None => sheet
    end in
  result <- execute sheets (ValuesGet spreadsheet_id full_range) ;;
  eval (py_get result "values" (JArr [])).

Definition update_cells (spreadsheet_id sheet range : string) (data : json)
  : tool json :=
  sheets <- lifespan_context sheets_service ;;
  let full_range := qualified sheet range in
  let value_range_body := JObj [("values", data)] in
  execute sheets
    (ValuesUpdate spreadsheet_id full_range "USER_ENTERED" value_range_body).

Definition batch_entry (sheet : string) (item : string * json) : json :=
  JObj [("range", JStr (qualified sheet (fst item))); ("values", snd item)].

Definition batch_update_cells (spreadsheet_id sheet : string)
    (ranges : list (string * json)) : tool json :=
  sheets <- lifespan_context sheets_service ;;
  let data := map (batch_entry sheet) ranges in
  let batch_body :=
    JObj [("valueInputOption", JStr "USER_ENTERED"); ("data", JArr data)] in
  execute sheets (ValuesBatchUpdate spreadsheet_id batch_body).

Definition not_found (prefix sheet : string) : json :=
  JObj [("error", JStr (prefix +:+ sheet +:+ "' not found"))].

Definition insert_dimension (sheet_id : json) (dimension : string)
    (count : Z) (start : option Z) : json :=
  JObj [("requests", JArr [
    JObj [("insertDimension", JObj [
      ("range", JObj [
         ("sheetId", sheet_id);
         ("dimension", JStr dimension);
         ("startIndex", JInt (match start with Some s => s | None => 0 end));
         ("endIndex", JInt ((match start with Some s => s | None => 0 end) + count))]);
      ("inheritFromBefore",
         JBool (match start with Some s => (0 <? s)%Z | None => false end))])]])].

Definition add_rows (spreadsheet_id sheet : string) (count : Z)
    (start_row : option Z) : tool json :=
  sheets <- lifespan_context sheets_service ;;
  spreadsheet <- execute sheets (SpreadsheetsGet spreadsheet_id) ;;
  sheet_id <- eval (find_sheet_id spreadsheet sheet) ;;
  if is_none sheet_id then ret (not_found "Sheet '" sheet)
  else
    let request_body := insert_dimension sheet_id "ROWS" count start_row in
    execute sheets (SpreadsheetsBatchUpdate spreadsheet_id request_body).

Definition add_columns (spreadsheet_id sheet : string) (count : Z)
    (start_column : option Z) : tool json :=
  sheets <- lifespan_context sheets_service ;;
  spreadsheet <- execute sheets (SpreadsheetsGet spreadsheet_id) ;;
  sheet_id <- eval (find_sheet_id spreadsheet sheet) ;;
  if is_none sheet_id then ret (not_found "Sheet '" sheet)
  else
    let request_body := insert_dimension sheet_id "COLUMNS" count start_column in
    execute sheets (SpreadsheetsBatchUpdate spreadsheet_id request_body).

Definition list_sheets (spreadsheet_id : string) : tool json :=
  sheets <- lifespan_context sheets_service ;;
  spreadsheet <- execute sheets (SpreadsheetsGet spreadsheet_id) ;;
  eval (ss <-- getitem spreadsheet "sheets";
        l <-- py_iter ss;
        names <-- map_result title_of l;
        Ok (JArr names))%res.

Definition update_title (sheet_id : json) (title : string) : json :=
  JObj [("requests", JArr [
    JObj [("updateSheetProperties", JObj [
      ("properties", JObj [("sheetId", sheet_id); ("title", JStr title)]);
      ("fields", JStr "title")])]])].

Definition copy_sheet (src_spreadsheet src_sheet dst_spreadsheet dst_sheet : string)
  : tool json :=
  sheets <- lifespan_context sheets_service ;;
  src <- execute sheets (SpreadsheetsGet src_spreadsheet) ;;
  src_sheet_id <- eval (find_sheet_id src src_sheet) ;;
  if is_none src_sheet_id then ret (not_found "Source sheet '" src_sheet)
  else
    copy_result <- execute sheets
      (SheetsCopyTo src_spreadsheet src_sheet_id
         (JObj [("destinationSpreadsheetId", JStr dst_spreadsheet)])) ;;
    rename <- eval (has_title <-- py_in "title" copy_result;
                    if has_title
                    then (t <-- getitem copy_result "title";
                          Ok (negb (py_eq_str t dst_sheet)))
                    else Ok false)%res ;;
    if rename then
      copy_sheet_id <- eval (getitem copy_result "sheetId") ;;
      let rename_request := update_title copy_sheet_id dst_sheet in
      rename_result <- execute sheets
        (SpreadsheetsBatchUpdate dst_spreadsheet rename_request) ;;
      ret (JObj [("copy", copy_result); ("rename", rename_result)])
    else ret (JObj [("copy", copy_result)]).

Definition rename_sheet (spreadsheet sheet new_name : string) : tool json :=
  sheets <- lifespan_context sheets_service ;;
  spreadsheet_data <- execute sheets (SpreadsheetsGet spreadsheet) ;;
  sheet_id <- eval (find_sheet_id spreadsheet_data sheet) ;;
  if is_none sheet_id then ret (not_found "Sheet '" sheet)
  else
    let request_body := update_title sheet_id new_name in
    execute sheets (SpreadsheetsBatchUpdate spreadsheet request_body).

Definition sheet_info (sheet : json) : result json :=
  (title <-- title_of sheet;
   sheet_id <-- sheet_id_of sheet;
   props <-- getitem sheet "properties";
   grid <-- py_get props "gridProperties" (JObj []);
   Ok (JObj [("title", title); ("sheetId", sheet_id); ("gridProperties", grid)]))%res.

Definition spreadsheet_info (spreadsheet : json) : result json :=
  (props <-- py_get spreadsheet "properties" (JObj []);
   title <-- py_get props "title" (JStr "Unknown");
   ss <-- py_get spreadsheet "sheets" (JArr []);
   l <-- py_iter ss;
   infos <-- map_result sheet_info l;
   Ok (JObj [("title", title); ("sheets", JArr infos)]))%res.

(** [mcp.get_lifespan_context()]: the lifespan context when the server
    object has the method, [AttributeError] when it has not. *)
Definition mcp_get_lifespan_context : tool SpreadsheetContext :=
  fun w => if has_get_lifespan_context
           then (Ok (session w), w)
           else (Raise AttributeError, w).

Definition get_spreadsheet_info (spreadsheet_id : string) : tool json :=
  context <- mcp_get_lifespan_context ;;
  let sheets := sheets_service context in
  spreadsheet <- execute sheets (SpreadsheetsGet spreadsheet_id) ;;
  info <- eval (spreadsheet_info spreadsheet) ;;
  ret (JStr (json_dumps info)).

(** The two Drive calls inside the [try] block of [create_spreadsheet]. *)
Definition move_to_folder (drive : handle) (spreadsheet_id : json) (folder : string)
  : tool unit :=
  file <- execute drive (FilesGet spreadsheet_id "parents") ;;
  previous_parents <- eval (parents <-- py_get file "parents" (JArr []);
                            py_join "," parents)%res ;;
  execute drive
    (FilesUpdate spreadsheet_id folder previous_parents "id, parents") ;;
  print (LMoved folder).

(** The dict built by the [return] statement of [create_spreadsheet]. *)
Definition created (spreadsheet spreadsheet_id : json) (title : string)
    (folder : option string) : result json :=
  (props <-- py_get spreadsheet "properties" (JObj []);
   t <-- py_get props "title" (JStr title);
   ss <-- py_get spreadsheet "sheets" (JArr []);
   l <-- py_iter ss;
   names <-- map_result
     (fun sheet => p <-- py_get sheet "properties" (JObj []);
                   py_get p "title" (JStr "Sheet1")) l;
   Ok (JObj [("spreadsheetId", spreadsheet_id);
             ("title", t);
             ("sheets", JArr names);
             ("folder", JStr (match nonempty folder with
                              | Some f => f
                              | None => "root"
                              end))]))%res.

Definition create_spreadsheet (title : string) : tool json :=
  sheets <- lifespan_context sheets_service ;;
  drive <- lifespan_context drive_service ;;
  folder <- lifespan_context folder_id ;;
  let spreadsheet_body := JObj [("properties", JObj [("title", JStr title)])] in
  spreadsheet <- execute sheets
    (SpreadsheetsCreate spreadsheet_body "spreadsheetId,properties,sheets") ;;
  spreadsheet_id <- eval (py_get spreadsheet "spreadsheetId" JNull) ;;
  print (LCreated spreadsheet_id) ;;
  match nonempty folder with
  | Some f =>
      try_except (move_to_folder drive spreadsheet_id f)
                 (fun e => print (LMoveWarning e))
  | None => ret tt
  end ;;
  eval (created spreadsheet spreadsheet_id title folder).

Definition create_sheet (spreadsheet_id title : string) : tool json :=
  sheets <- lifespan_context sheets_service ;;
  let request_body :=
    JObj [("requests", JArr [
      JObj [("addSheet", JObj [("properties", JObj [("title", JStr title)])])]])] in
  result <- execute sheets (SpreadsheetsBatchUpdate spreadsheet_id request_body) ;;
  eval (replies <-- getitem result "replies";
        first <-- getindex replies 0;
        added <-- getitem first "addSheet";
        new_sheet_props <-- getitem added "properties";
        sheet_id <-- getitem new_sheet_props "sheetId";
        t <-- getitem new_sheet_props "title";
        index <-- py_get new_sheet_props "index" JNull;
        Ok (JObj [("sheetId", sheet_id); ("title", t); ("index", index);
                  ("spreadsheetId", JStr spreadsheet_id)]))%res.

Definition list_spreadsheets : tool json :=
  drive <- lifespan_context drive_service ;;
  folder <- lifespan_context folder_id ;;
  let query := "mimeType='application/vnd.google-apps.spreadsheet'" in
  query <- match nonempty folder with
           | Some f =>
               print (LSearchFolder f) ;;
               ret (query +:+ " and '" +:+ f +:+ "' in parents")
           | None => print LSearchMyDrive ;; ret query
           end ;;
  results <- execute drive
    (FilesList query "drive" "files(id, name)" "modifiedTime desc") ;;
  eval (files <-- py_get results "files" (JArr []);
        l <-- py_iter files;
        out <-- map_result
          (fun sheet => i <-- getitem sheet "id";
                        n <-- getitem sheet "name";
                        Ok (JObj [("id", i); ("title", n)])) l;
        Ok (JArr out))%res.

(** ** The host server shell

    The shell receives named calls and runs the matching handler.  A fault
    of one call is reported to its caller; the process keeps serving. *)
Inductive invocation : Type :=
| GetSheetData (spreadsheet_id sheet : string) (range : option string)
| UpdateCells (spreadsheet_id sheet range : string) (data : json)
| BatchUpdateCells (spreadsheet_id sheet : string) (ranges : list (string * json))
| AddRows (spreadsheet_id sheet : string) (count : Z) (start_row : option Z)
| AddColumns (spreadsheet_id sheet : string) (count : Z) (start_column : option Z)
| ListSheets (spreadsheet_id : string)
| CopySheet (src_spreadsheet src_sheet dst_spreadsheet dst_sheet : string)
| RenameSheet (spreadsheet sheet new_name : string)
| GetSpreadsheetInfo (spreadsheet_id : string)
| CreateSpreadsheet (title : string)
| CreateSheet (spreadsheet_id title : string)
| ListSpreadsheets.

Definition invoke (i : invocation) : tool json :=
  match i with
  | GetSheetData id sheet range => get_sheet_data id sheet range
  | UpdateCells id sheet range data => update_cells id sheet range data
  | BatchUpdateCells id sheet ranges => batch_update_cells id sheet ranges
  | AddRows id sheet count start => add_rows id sheet count start
  | AddColumns id sheet count start => add_columns id sheet count start
  | ListSheets id => list_sheets id
  | CopySheet src src_sheet dst dst_sheet => copy_sheet src src_sheet dst dst_sheet
  | RenameSheet id sheet new_name => rename_sheet id sheet new_name
  | GetSpreadsheetInfo id => get_spreadsheet_info id
  | CreateSpreadsheet title => create_spreadsheet title
  | CreateSheet id title => create_sheet id title
  | ListSpreadsheets => list_spreadsheets
  end.

Fixpoint serve (requests : list invocation) (w : world)
  : list (result json) * world :=
  match requests with
  | [] => ([], w)
  | i :: rest =>
      let (r, w') := invoke i w in
      let (rs, w'') := serve rest w' in
      (r :: rs, w'')
  end.

End Tools.

(** ** Start-up: credential resolution and session construction

    [spreadsheet_lifespan] up to its [yield].  The Google auth libraries
    are opaque; the file system is a finite map from paths to contents,
    kept together with the log of the writes made to it.  Console output of
    the start-up is left out. *)
Module Lifespan.

Record user_credentials : Type := {
  valid : bool;
  expired : bool;
  refresh_token : option string;
  token : string
}.

Inductive credentials : Type :=
| ServiceAccount (key : string)
| User (c : user_credentials).

Record config : Type := {
  TOKEN_PATH : string;
  CREDENTIALS_PATH : string;
  SERVICE_ACCOUNT_PATH : string;
  DRIVE_FOLDER_ID : string
}.

Record google_auth : Type := {
  (* service_account.Credentials.from_service_account_file, on the contents
     of the key file *)
  from_service_account_file : string -> result string;
  (* Credentials.from_authorized_user_info(json.load(token), SCOPES), on the
     contents of the token file *)
  from_authorized_user_info : string -> result user_credentials;
  (* creds.refresh(Request()): the credentials after the in-place refresh *)
  refresh : user_credentials -> result user_credentials;
  (* InstalledAppFlow.from_client_secrets_file(path, SCOPES)
       .run_local_server(port=0), on the contents of the client-secret file
     when there is one *)
  run_local_server : option string -> result user_credentials;
  (* creds.to_json() *)
  to_json : user_credentials -> string;
  (* googleapiclient.discovery.build *)
  build : string -> string -> credentials -> handle
}.

(** [unwritable] holds the paths that cannot be opened for writing (a
    missing directory, a permission), each with the error [open] raises. *)
Record disk : Type := Disk {
  files : gmap string string;
  writes : list (string * string);
  unwritable : gmap string exn
}.

(** [os.path.exists] *)
Definition exists_path (d : disk) (path : string) : bool :=
  match files d !! path with
  | Some _ => true
  | None => false
  end.

(** [with open(path, 'w') as f: f.write(content)]: [open] raises on a path
    that cannot be written and leaves the disk as it was; otherwise the file
    holds [content] afterwards. *)
Definition write_file (d : disk) (path content : string) : result disk :=
  match unwritable d !! path with
  | Some e => Raise e
  | None =>
      Ok (Disk (<[path := content]> (files d)) (writes d ++ [(path, content)])
               (unwritable d))
  end.

Section Resolver.

Variable cfg : config.
Variable lib : google_auth.

(** Lines 47-59: the service-account attempt; a load failure is swallowed. *)
Definition service_account_creds (d : disk) : option credentials :=
  if negb (String.eqb (SERVICE_ACCOUNT_PATH cfg) "")
  then match files d !! SERVICE_ACCOUNT_PATH cfg with
       | Some content =>
           match from_service_account_file lib content with
           | Ok key => Some (ServiceAccount key)
           | Raise _ => None
           end
       | None => None
       end
  else None.

(** Lines 64-66: the cached token, when the cache file exists. *)
Definition cached_creds (d : disk) : result (option user_credentials) :=
  match files d !! TOKEN_PATH cfg with
  | Some content =>
      (c <-- from_authorized_user_info lib content; Ok (Some c))%res
  | None => Ok None
  end.

(** [creds and creds.expired and creds.refresh_token] *)
Definition refreshable (creds : option user_credentials) : option user_credentials :=
  match creds with
  | Some c =>
      if expired c
      then match nonempty (refresh_token c) with
           | Some _ => Some c
           | None => None
           end
      else None
  | None => None
  end.

(** Lines 70-74: refresh the cached credentials when they allow it, run the
    interactive flow otherwise. *)
Definition fresh_creds (creds : option user_credentials) (d : disk)
  : result user_credentials :=
  match refreshable creds with
  | Some c => refresh lib c
  | None => run_local_server lib (files d !! CREDENTIALS_PATH cfg)
  end.

(** Lines 70-78: new credentials, then the token is saved; a failure to
    save is a failure of the start-up. *)
Definition login (creds : option user_credentials) (d : disk)
  : result user_credentials * disk :=
  match fresh_creds creds d with
  | Ok c =>
      match write_file d (TOKEN_PATH cfg) (to_json lib c) with
      | Ok d' => (Ok c, d')
      | Raise e => (Raise e, d)
      end
  | Raise e => (Raise e, d)
  end.

(** Lines 62-78: the OAuth path.  The guard [not creds or not creds.valid]
    is the case split on the cached credentials. *)
Definition oauth_creds (d : disk) : result user_credentials * disk :=
  match cached_creds d with
  | Raise e => (Raise e, d)
  | Ok None => login None d
  | Ok (Some c) => if valid c then (Ok c, d) else login (Some c) d
  end.

Definition resolve_credentials (d : disk) : result credentials * disk :=
  match service_account_creds d with
  | Some creds => (Ok creds, d)
  | None =>
      match oauth_creds d with
      | (Ok c, d') => (Ok (User c), d')
      | (Raise e, d') => (Raise e, d')
      end
  end.

Definition spreadsheet_lifespan (d : disk) : result SpreadsheetContext * disk :=
  match resolve_credentials d with
  | (Ok creds, d') =>
      (Ok {| sheets_service := build lib "sheets" "v4" creds;
             drive_service := build lib "drive" "v3" creds;
             folder_id := nonempty (Some (DRIVE_FOLDER_ID cfg)) |}, d')
  | (Raise e, d') => (Raise e, d')
  end.

End Resolver.

End Lifespan.

(** * Vocabulary of the properties *)

(** The world after one more request [c] on the handle [h]. *)
Definition after (w : world) (h : handle) (c : call) : world :=
  World (session w) (calls w ++ [Ev h c]) (stdout w).

(** The requests a tool run adds to the log. *)
Definition issued {A : Type} (t : tool A) (w : world) : list event :=
  drop (length (calls w)) (calls (snd (t w))).

(** The descriptor has a title, and it is not the string [sheet]. *)
Definition other_title (sheet : string) (s : json) : Prop :=
  exists t, title_of s = Ok t /\ t <> JStr sheet.

(** A tool computation leaves the session context as it found it. *)
Definition keeps_session {A : Type} (t : tool A) : Prop :=
  forall w, session (snd (t w)) = session w.

(** The request [create_spreadsheet] starts with. *)
Definition create_request (title : string) : call :=
  SpreadsheetsCreate (JObj [("properties", JObj [("title", JStr title)])])
    "spreadsheetId,properties,sheets".

(** The world in which the folder move of [create_spreadsheet] starts. *)
Definition just_created (w : world) (title : string) (spreadsheet_id : json) : world :=
  World (session w)
        (calls w ++ [Ev (sheets_service (session w)) (create_request title)])
        (stdout w ++ [LCreated spreadsheet_id]).


(** * Sample data *)

(** A sheet descriptor as the Sheets API returns it. *)
Definition sheet_descriptor (title : string) (id : Z) : json :=
  JObj [("properties", JObj [("sheetId", JInt id); ("title", JStr title)])].

Definition sample_book : json :=
  JObj [("spreadsheetId", JStr "abc123");
        ("sheets", JArr [sheet_descriptor "sheet1" 11;
                         sheet_descriptor "Sheet" 12;
                         sheet_descriptor "Sheet1" 13;
                         sheet_descriptor "Sheet1" 14])].

(** A session with no working folder and nothing requested or printed yet. *)
Definition idle : world :=
  World {| sheets_service := 1%nat; drive_service := 2%nat; folder_id := None |}
        [] [].

(** A session whose working folder is ["F1"]. *)
Definition in_folder : world :=
  World {| sheets_service := 1%nat; drive_service := 2%nat;
           folder_id := Some "F1" |} [] [].

(** The spreadsheet of the specification's [list_sheets] example, and a
    book whose only sheet has a null id. *)
Definition three_sheets : json :=
  JObj [("sheets", JArr [sheet_descriptor "Sheet1" 0;
                         sheet_descriptor "Data" 5;
                         sheet_descriptor "Archive" 9])].

Definition null_id_book : json :=
  JObj [("sheets",
         JArr [JObj [("properties",
                      JObj [("sheetId", JNull); ("title", JStr "Sheet1")])]])].

(** A remote that answers each request by kind. *)
Definition office_remote : remote :=
  fun _ _ c =>
    match c with
    | SpreadsheetsGet _ => Ok three_sheets
    | ValuesGet _ _ => Ok (JObj [("range", JStr "Data!A1:B2")])
    | SpreadsheetsBatchUpdate _ _ =>
        Ok (JObj [("replies",
                   JArr [JObj [("addSheet",
                                JObj [("properties",
                                       JObj [("sheetId", JInt 42);
                                             ("title", JStr "Notes");
                                             ("index", JInt 3)])])]])])
    | FilesList _ _ _ _ =>
        Ok (JObj [("files", JArr [JObj [("id", JStr "s-2"); ("name", JStr "Plan")];
                                  JObj [("id", JStr "s-1"); ("name", JStr "Budget")]])])
    | _ => Raise (RemoteError "400")
    end.

(** A remote whose every answer is the metadata of [sample_book]. *)
Definition sample_remote : remote := fun _ _ _ => Ok sample_book.

(** A remote that serves [sample_book], answers a copy with the properties
    of the new sheet, and acknowledges everything else. *)
Definition copy_remote : remote :=
  fun _ _ c =>
    match c with
    | SpreadsheetsGet _ => Ok sample_book
    | SheetsCopyTo _ _ _ =>
        Ok (JObj [("sheetId", JInt 77); ("title", JStr "Copy of Sheet1");
                  ("index", JInt 1)])
    | _ => Ok (JObj [("replies", JArr [JObj []])])
    end.

(** A remote whose copy response carries the new sheet id but no title. *)
Definition untitled_copy_remote : remote :=
  fun _ _ c =>
    match c with
    | SpreadsheetsGet _ => Ok sample_book
    | _ => Ok (JObj [("sheetId", JInt 77)])
    end.

Definition new_spreadsheet : json :=
  JObj [("spreadsheetId", JStr "s-1");
        ("properties", JObj [("title", JStr "Budget")]);
        ("sheets", JArr [JObj [("properties", JObj [("title", JStr "Sheet1")])]])].

(** A remote on which the move of a new file succeeds ... *)
Definition moving_remote : remote :=
  fun _ _ c =>
    match c with
    | SpreadsheetsCreate _ _ => Ok new_spreadsheet
    | FilesGet _ _ => Ok (JObj [("parents", JArr [JStr "root0"])])
    | FilesUpdate _ _ _ _ =>
        Ok (JObj [("id", JStr "s-1"); ("parents", JArr [JStr "F1"])])
    | _ => Raise (RemoteError "404")
    end.

(** ... and one on which it is refused. *)
Definition refusing_remote : remote :=
  fun _ _ c =>
    match c with
    | SpreadsheetsCreate _ _ => Ok new_spreadsheet
    | FilesGet _ _ => Ok (JObj [("parents", JArr [JStr "root0"])])
    | _ => Raise (RemoteError "403")
    end.

(** Metadata with no top-level properties and a sheet without grid
    properties. *)
Definition sparse_book : json :=
  JObj [("sheets",
         JArr [JObj [("properties",
                      JObj [("sheetId", JInt 0); ("title", JStr "Sheet1")])]])].

Definition sparse_remote : remote := fun _ _ _ => Ok sparse_book.

(** Metadata whose second sheet has a title but no id, and metadata whose
    only sheet has no properties at all. *)
Definition idless_remote : remote :=
  fun _ _ _ =>
    Ok (JObj [("properties", JObj [("title", JStr "Book")]);
              ("sheets",
               JArr [JObj [("properties",
                            JObj [("sheetId", JInt 0); ("title", JStr "Sheet1")])];
                     JObj [("properties", JObj [("title", JStr "Sheet2")])]])]).

Definition bare_sheet_remote : remote :=
  fun _ _ _ => Ok (JObj [("sheets", JArr [JObj []])]).

(** ** A serializer to run [get_spreadsheet_info] with

    The layout of [json.dumps(_, indent=2)]: two spaces per level, one item
    per line, empty containers on one line.  It agrees with [json.dumps] on
    values whose strings are ASCII; a character outside that range is
    escaped byte by byte here, and as one code point by [json.dumps]. *)
Definition hex_digit (n : nat) : ascii :=
  ascii_of_nat (if Nat.ltb n 10 then 48 + n else 87 + n).

Definition escape_char (c : ascii) : string :=
  let n := nat_of_ascii c in
  let plain := String c EmptyString in
  let backslash := String (ascii_of_nat 92) EmptyString in
  if Nat.eqb n 34 then backslash +:+ plain
  else if Nat.eqb n 92 then backslash +:+ plain
  else if Nat.eqb n 10 then backslash +:+ "n"
  else if Nat.eqb n 13 then backslash +:+ "r"
  else if Nat.eqb n 9 then backslash +:+ "t"
  else if Nat.eqb n 8 then backslash +:+ "b"
  else if Nat.eqb n 12 then backslash +:+ "f"
  else if Nat.ltb n 32 || Nat.ltb 126 n
       then backslash +:+ "u00"
            +:+ String (hex_digit (n / 16))
                  (String (hex_digit (n mod 16)) EmptyString)
       else plain.

Fixpoint escape (s : string) : string :=
  match s with
  | EmptyString => EmptyString
  | String c rest => escape_char c +:+ escape rest
  end.

Definition quoted (s : string) : string :=
  let quote := String (ascii_of_nat 34) EmptyString in
  quote +:+ escape s +:+ quote.

Fixpoint spaces (n : nat) : string :=
  match n with
  | O => EmptyString
  | S m => " " +:+ spaces m
  end.

Definition newline : string := String (ascii_of_nat 10) EmptyString.

Fixpoint separated (sep : string) (l : list string) : string :=
  match l with
  | [] => EmptyString
  | [x] => x
  | x :: rest => x +:+ sep +:+ separated sep rest
  end.

Definition block (opening closing : string) (level : nat) (items : list string)
  : string :=
  match items with
  | [] => opening +:+ closing
  | _ =>
      opening +:+ newline +:+ spaces (2 * (level + 1))
      +:+ separated ("," +:+ newline +:+ spaces (2 * (level + 1))) items
      +:+ newline +:+ spaces (2 * level) +:+ closing
  end.

Fixpoint dumps (level : nat) (v : json) : string :=
  match v with
  | JNull => "null"
  | JBool true => "true"
  | JBool false => "false"
  | JInt z => NilZero.string_of_int (Z.to_int z)
  | JStr s => quoted s
  | JArr l => block "[" "]" level (map (dumps (level + 1)) l)
  | JObj o =>
      block "{" "}" level
        (map (fun kv => quoted (fst kv) +:+ ": " +:+ dumps (level + 1) (snd kv)) o)
  end.

Definition dumps_indent2 : json -> string := dumps 0.

Import Lifespan.

(** The default configuration of the server. *)
Definition default_config : config :=
  {| TOKEN_PATH := "token.json";
     CREDENTIALS_PATH := "credentials.json";
     SERVICE_ACCOUNT_PATH := "service_account.json";
     DRIVE_FOLDER_ID := "" |}.

(** An auth library for which a cached token reading ["good"] is valid, any
    other is expired and refreshable, and the interactive flow succeeds when
    there is a client-secret file. *)
Definition sample_auth : google_auth :=
  {| from_service_account_file := fun content => Ok content;
     from_authorized_user_info := fun content =>
       Ok {| valid := String.eqb content "good";
             expired := negb (String.eqb content "good");
             refresh_token := Some "r-1";
             token := content |};
     refresh := fun c =>
       Ok {| valid := true; expired := false;
             refresh_token := refresh_token c; token := "refreshed" |};
     run_local_server := fun secret =>
       match secret with
       | Some _ =>
           Ok {| valid := true; expired := false;
                 refresh_token := Some "r-2"; token := "granted" |}
       | None => Raise (RemoteError "client secrets not found")
       end;
     to_json := fun c => "token=" +:+ token c;
     build := fun name _ _ => if String.eqb name "sheets" then 1%nat else 2%nat |}.

(** A first run: the client-secret file is there, no token is cached. *)
Definition first_run_disk : disk :=
  Disk {[ "credentials.json" := "client-secret" ]} [] ∅.

(** A first run on which the token cache cannot be opened for writing. *)
Definition locked_disk : disk :=
  Disk {[ "credentials.json" := "client-secret" ]} []
       {[ "token.json" := OSError "Permission denied" ]}.

(** A later run: a valid token is cached. *)
Definition cached_disk : disk :=
  Disk {[ "token.json" := "good" ]} [] ∅.

(** The credentials the interactive flow and the cache of [sample_auth]
    produce. *)
Definition granted : user_credentials :=
  {| valid := true; expired := false; refresh_token := Some "r-2";
     token := "granted" |}.

Definition cached_good : user_credentials :=
  {| valid := true; expired := false; refresh_token := Some "r-1";
     token := "good" |}.

(** * Vocabulary of the further properties *)

(** A request goes to the Drive client when it is a [files()] request, and
    to the Sheets client otherwise. *)
Definition routed (s : SpreadsheetContext) (e : event) : Prop :=
  ev_handle e =
  match ev_call e with
  | FilesGet _ _ | FilesUpdate _ _ _ _ | FilesList _ _ _ _ => drive_service s
  | _ => sheets_service s
  end.

(** The descriptor has some title. *)
Definition titled (s : json) : Prop := exists t, title_of s = Ok t.

(** The request [create_sheet] sends. *)
Definition add_sheet_request (spreadsheet_id title : string) : call :=
  SpreadsheetsBatchUpdate spreadsheet_id
    (JObj [("requests", JArr [
       JObj [("addSheet", JObj [("properties", JObj [("title", JStr title)])])]])]).

(** The request [rename_sheet] sends for the sheet with id [sheet_id]. *)
Definition rename_request (spreadsheet : string) (sheet_id : json) (new_name : string)
  : call :=
  SpreadsheetsBatchUpdate spreadsheet
    (JObj [("requests", JArr [
       JObj [("updateSheetProperties", JObj [
         ("properties", JObj [("sheetId", sheet_id); ("title", JStr new_name)]);
         ("fields", JStr "title")])]])]).

(** [entry] is what [list_spreadsheets] reports for the Drive file [file]. *)
Definition listed_as (file entry : json) : Prop :=
  exists id name,
    getitem file "id" = Ok id /\ getitem file "name" = Ok name /\
    entry = JObj [("id", id); ("title", name)].


Definition sheetless_remote : remote :=
  fun _ _ _ => Ok (JObj [("spreadsheetId", JStr "abc123")]).

(** A remote on which reading the parents of a new file is refused. *)
Definition parentless_remote : remote :=
  fun _ _ c =>
    match c with
    | SpreadsheetsCreate _ _ => Ok new_spreadsheet
    | _ => Raise (RemoteError "403")
    end.

(** A remote that acknowledges a structural update without replies. *)
Definition silent_remote : remote :=
  fun _ _ _ => Ok (JObj [("replies", JArr [])]).

(** A configuration with a working folder. *)
Definition folder_config : config :=
  {| TOKEN_PATH := "token.json";
     CREDENTIALS_PATH := "credentials.json";
     SERVICE_ACCOUNT_PATH := "service_account.json";
     DRIVE_FOLDER_ID := "F1" |}.

(** An auth library whose serialized tokens load back as they were. *)
Definition faithful_auth : google_auth :=
  {| from_service_account_file := fun content => Ok content;
     from_authorized_user_info := fun content =>
       Ok {| valid := true; expired := false;
             refresh_token := Some "r-2"; token := content |};
     refresh := fun c => Ok c;
     run_local_server := fun secret =>
       match secret with
       | Some _ => Ok granted
       | None => Raise (RemoteError "client secrets not found")
       end;
     to_json := fun c => token c;
     build := fun name _ _ => if String.eqb name "sheets" then 1%nat else 2%nat |}.

(** A remote whose copy response has a title but no sheet id, and a disk
    whose token cache cannot be parsed by [strict_auth]. *)
Definition idless_copy_remote : remote :=
  fun _ _ c =>
    match c with
    | SpreadsheetsGet _ => Ok sample_book
    | _ => Ok (JObj [("title", JStr "Copy of Sheet1")])
    end.

Definition strict_auth : google_auth :=
  {| from_service_account_file := fun content => Ok content;
     from_authorized_user_info := fun content =>
       if String.eqb content "good" then Ok cached_good
       else Raise (RemoteError "malformed token file");
     refresh := fun c => Ok c;
     run_local_server := fun _ => Ok granted;
     to_json := fun c => token c;
     build := fun name _ _ => if String.eqb name "sheets" then 1%nat else 2%nat |}.

Definition corrupt_cache_disk : disk :=
  Disk {[ "token.json" := "{" ; "credentials.json" := "client-secret" ]} [] ∅.

(** * Properties *)

(** Unfold the plumbing of a tool body, leaving the remote answers. *)
Ltac step :=
  unfold bind, eval, ret, lifespan_context, execute, print, try_except;
  cbn [fst snd session calls stdout].

Ltac other_titles :=
  repeat (constructor; [eexists; split; [reflexivity | discriminate] |]);
  constructor.

Lemma issued_after {A : Type} (t : tool A) (w : world) (r : result A)
    (s : SpreadsheetContext) (new : list event) (out : list line) :
  t w = (r, World s (calls w ++ new) out) -> issued t w = new.
Proof. intros H. unfold issued. rewrite H. cbn. apply drop_app_length. Qed.

(** ** The tools on sample requests *)

Example list_sheets_keeps_order :
  list_sheets office_remote "abc123" idle =
  (Ok (JArr [JStr "Sheet1"; JStr "Data"; JStr "Archive"]),
   World (session idle) [Ev 1%nat (SpreadsheetsGet "abc123")] []).
Proof. reflexivity. Qed.

Example get_sheet_data_ranges :
  issued (get_sheet_data office_remote "abc123" "Data" (Some "A1:B2")) idle =
    [Ev 1%nat (ValuesGet "abc123" "Data!A1:B2")] /\
  issued (get_sheet_data office_remote "abc123" "Data" None) idle =
    [Ev 1%nat (ValuesGet "abc123" "Data")] /\
  issued (get_sheet_data office_remote "abc123" "Data" (Some "")) idle =
    [Ev 1%nat (ValuesGet "abc123" "Data")] /\
  fst (get_sheet_data office_remote "abc123" "Data" None idle) = Ok (JArr []).
Proof. repeat split. Qed.

Example create_sheet_reports_properties :
  fst (create_sheet office_remote "abc123" "Notes" idle) =
  Ok (JObj [("sheetId", JInt 42); ("title", JStr "Notes"); ("index", JInt 3);
            ("spreadsheetId", JStr "abc123")]).
Proof. reflexivity. Qed.

Example list_spreadsheets_scoped_to_folder :
  list_spreadsheets office_remote in_folder =
  (Ok (JArr [JObj [("id", JStr "s-2"); ("title", JStr "Plan")];
             JObj [("id", JStr "s-1"); ("title", JStr "Budget")]]),
   World (session in_folder)
     [Ev 2%nat
        (FilesList
           "mimeType='application/vnd.google-apps.spreadsheet' and 'F1' in parents"
           "drive" "files(id, name)" "modifiedTime desc")]
     [LSearchFolder "F1"]).
Proof. reflexivity. Qed.

Example join_parents :
  py_join "," (JArr [JStr "p1"; JStr "p2"; JStr "p3"]) = Ok "p1,p2,p3" /\
  py_join "," (JArr []) = Ok "" /\
  py_join "," (JArr [JStr "p1"; JInt 2]) = Raise TypeError.
Proof. repeat split. Qed.

(** A sheet whose id is null is reported as not found although its title
    matches. *)
Example null_sheet_id_reads_as_missing :
  find_sheet_id null_id_book "Sheet1" = Ok JNull /\
  fst (rename_sheet (fun _ _ _ => Ok null_id_book) "abc123" "Sheet1" "Main" idle)
    = Ok (JObj [("error", JStr "Sheet 'Sheet1' not found")]).
Proof. split; reflexivity. Qed.

(** ** Sheet-name lookup *)

Lemma py_eq_str_true (v : json) (s : string) : py_eq_str v s = true <-> v = JStr s.
Proof.
  destruct v; cbn; try (split; [discriminate | intros [=]]).
  rewrite String.eqb_eq. split; [congruence | now intros [= ->]].
Qed.

Lemma py_eq_str_false (v : json) (s : string) : py_eq_str v s = false <-> v <> JStr s.
Proof.
  rewrite <- py_eq_str_true. destruct (py_eq_str v s); split; congruence.
Qed.

Lemma scan_sheets_cons_other (s : json) (rest : list json) (sheet : string) :
  other_title sheet s -> scan_sheets (s :: rest) sheet = scan_sheets rest sheet.
Proof.
  intros (t & Ht & Hne). cbn [scan_sheets]. rewrite Ht. cbn.
  apply py_eq_str_false in Hne. now rewrite Hne.
Qed.

Lemma scan_sheets_cons_match (s : json) (rest : list json) (sheet : string) :
  title_of s = Ok (JStr sheet) -> scan_sheets (s :: rest) sheet = sheet_id_of s.
Proof.
  intros Ht. cbn [scan_sheets]. rewrite Ht. cbn. now rewrite String.eqb_refl.
Qed.

Lemma scan_sheets_skip (before rest : list json) (sheet : string) :
  Forall (other_title sheet) before ->
  scan_sheets (before ++ rest) sheet = scan_sheets rest sheet.
Proof.
  induction 1 as [|s before Hs _ IH]; [reflexivity|].
  cbn [app]. now rewrite scan_sheets_cons_other.
Qed.

Lemma scan_sheets_none (sheets : list json) (sheet : string) :
  Forall (other_title sheet) sheets -> scan_sheets sheets sheet = Ok JNull.
Proof.
  intros H. rewrite <- (app_nil_r sheets). now rewrite scan_sheets_skip.
Qed.

Lemma find_sheet_id_none (spreadsheet ss : json) (sheets : list json) (sheet : string) :
  getitem spreadsheet "sheets" = Ok ss -> py_iter ss = Ok sheets ->
  Forall (other_title sheet) sheets ->
  find_sheet_id spreadsheet sheet = Ok JNull.
Proof.
  intros Hss Hit Hall. unfold find_sheet_id. rewrite Hss. cbn. rewrite Hit. cbn.
  now apply scan_sheets_none.
Qed.

(** C6. The lookup compares whole titles, character for character: the
    descriptors before the first one titled exactly [sheet] are passed over
    whatever their titles are (substrings and case variants of [sheet]
    included), the id of that first descriptor is returned, and when every
    title differs from [sheet] the lookup ends with [None]. *)
Theorem find_sheet_id_first_exact_title
    (spreadsheet ss : json) (sheets : list json) (sheet : string) :
  getitem spreadsheet "sheets" = Ok ss ->
  py_iter ss = Ok sheets ->
  (forall (before : list json) (s : json) (rest : list json),
     sheets = before ++ s :: rest ->
     Forall (other_title sheet) before ->
     title_of s = Ok (JStr sheet) ->
     find_sheet_id spreadsheet sheet = sheet_id_of s) /\
  (Forall (other_title sheet) sheets ->
     find_sheet_id spreadsheet sheet = Ok JNull).
Proof.
  intros Hss Hit. split.
  - intros before s rest -> Hbefore Ht.
    unfold find_sheet_id. rewrite Hss. cbn. rewrite Hit. cbn.
    rewrite scan_sheets_skip by assumption.
    now apply scan_sheets_cons_match.
  - now apply find_sheet_id_none with (ss := ss).
Qed.

Lemma find_sheet_id_first_exact_title_witness :
  find_sheet_id sample_book "Sheet1" = Ok (JInt 13) /\
  find_sheet_id sample_book "SHEET1" = Ok JNull.
Proof.
  split.
  - apply (proj1 (find_sheet_id_first_exact_title sample_book _ _ "Sheet1"
                    eq_refl eq_refl)
             [sheet_descriptor "sheet1" 11; sheet_descriptor "Sheet" 12]
             (sheet_descriptor "Sheet1" 13)
             [sheet_descriptor "Sheet1" 14]).
    + reflexivity.
    + other_titles.
    + reflexivity.
  - apply (proj2 (find_sheet_id_first_exact_title sample_book _ _ "SHEET1"
                    eq_refl eq_refl)).
    other_titles.
Defined.

(** ** Sheet not found *)

Section NotFound.

Variable api : remote.
Variables (w : world) (spreadsheet_id sheet : string).
Variables (spreadsheet ss : json) (sheets : list json).

Hypothesis metadata :
  api (calls w) (sheets_service (session w)) (SpreadsheetsGet spreadsheet_id)
  = Ok spreadsheet.
Hypothesis has_sheets : getitem spreadsheet "sheets" = Ok ss.
Hypothesis listed : py_iter ss = Ok sheets.
Hypothesis no_match : Forall (other_title sheet) sheets.

Lemma lookup_misses : find_sheet_id spreadsheet sheet = Ok JNull.
Proof. exact (find_sheet_id_none _ _ _ _ has_sheets listed no_match). Qed.

Lemma add_rows_not_found (count : Z) (start_row : option Z) :
  add_rows api spreadsheet_id sheet count start_row w =
  (Ok (not_found "Sheet '" sheet),
   after w (sheets_service (session w)) (SpreadsheetsGet spreadsheet_id)).
Proof.
  unfold add_rows. step. rewrite metadata, lookup_misses. reflexivity.
Qed.

Lemma add_columns_not_found (count : Z) (start_column : option Z) :
  add_columns api spreadsheet_id sheet count start_column w =
  (Ok (not_found "Sheet '" sheet),
   after w (sheets_service (session w)) (SpreadsheetsGet spreadsheet_id)).
Proof.
  unfold add_columns. step. rewrite metadata, lookup_misses. reflexivity.
Qed.

Lemma rename_sheet_not_found (new_name : string) :
  rename_sheet api spreadsheet_id sheet new_name w =
  (Ok (not_found "Sheet '" sheet),
   after w (sheets_service (session w)) (SpreadsheetsGet spreadsheet_id)).
Proof.
  unfold rename_sheet. step. rewrite metadata, lookup_misses. reflexivity.
Qed.

Lemma copy_sheet_not_found (dst_spreadsheet dst_sheet : string) :
  copy_sheet api spreadsheet_id sheet dst_spreadsheet dst_sheet w =
  (Ok (not_found "Source sheet '" sheet),
   after w (sheets_service (session w)) (SpreadsheetsGet spreadsheet_id)).
Proof.
  unfold copy_sheet. step. rewrite metadata, lookup_misses. reflexivity.
Qed.

End NotFound.

(** C1 (as amended).  When the metadata lists no sheet titled [sheet], each
    of the four lookup-based tools returns normally with an error object and
    the metadata fetch is the only request it issued.  The message is
    ["Sheet '<name>' not found"] for [add_rows], [add_columns] and
    [rename_sheet], and ["Source sheet '<name>' not found"] for
    [copy_sheet]. *)
Theorem sheet_not_found_is_a_result
    (api : remote) (w : world) (spreadsheet_id sheet : string)
    (spreadsheet ss : json) (sheets : list json) :
  let h := sheets_service (session w) in
  let w' := World (session w) (calls w ++ [Ev h (SpreadsheetsGet spreadsheet_id)])
                  (stdout w) in
  api (calls w) h (SpreadsheetsGet spreadsheet_id) = Ok spreadsheet ->
  getitem spreadsheet "sheets" = Ok ss ->
  py_iter ss = Ok sheets ->
  Forall (other_title sheet) sheets ->
  (forall count start_row,
     add_rows api spreadsheet_id sheet count start_row w =
     (Ok (JObj [("error", JStr ("Sheet '" +:+ sheet +:+ "' not found"))]), w')) /\
  (forall count start_column,
     add_columns api spreadsheet_id sheet count start_column w =
     (Ok (JObj [("error", JStr ("Sheet '" +:+ sheet +:+ "' not found"))]), w')) /\
  (forall new_name,
     rename_sheet api spreadsheet_id sheet new_name w =
     (Ok (JObj [("error", JStr ("Sheet '" +:+ sheet +:+ "' not found"))]), w')) /\
  (forall dst_spreadsheet dst_sheet,
     copy_sheet api spreadsheet_id sheet dst_spreadsheet dst_sheet w =
     (Ok (JObj [("error", JStr ("Source sheet '" +:+ sheet +:+ "' not found"))]), w')).
Proof.
  intros h w' Hmeta Hss Hit Hno. repeat split; intros.
  - eapply add_rows_not_found; eassumption.
  - eapply add_columns_not_found; eassumption.
  - eapply rename_sheet_not_found; eassumption.
  - eapply copy_sheet_not_found; eassumption.
Qed.

Lemma sheet_not_found_is_a_result_witness :
  rename_sheet sample_remote "abc123" "OldName" "NewName" idle =
  (Ok (JObj [("error", JStr "Sheet 'OldName' not found")]),
   World (session idle) [Ev 1%nat (SpreadsheetsGet "abc123")] []).
Proof.
  apply (proj1 (proj2 (proj2
    (sheet_not_found_is_a_result sample_remote idle "abc123" "OldName"
       sample_book _ _ eq_refl eq_refl eq_refl ltac:(other_titles))))).
Defined.

(** C1 (as stated) fails for [copy_sheet]: its error message names the
    "Source sheet". *)
Lemma copy_sheet_not_found_names_source :
  fst (copy_sheet sample_remote "abc123" "Data" "def456" "Copy" idle)
    = Ok (JObj [("error", JStr "Source sheet 'Data' not found")]) /\
  fst (copy_sheet sample_remote "abc123" "Data" "def456" "Copy" idle)
    <> Ok (JObj [("error", JStr "Sheet 'Data' not found")]).
Proof. split; [reflexivity | discriminate]. Qed.

(** ** Tools after a successful lookup *)

Section Found.

Variable api : remote.
Variables (w : world) (spreadsheet_id sheet : string).
Variables (spreadsheet sheet_id : json).

Hypothesis metadata :
  api (calls w) (sheets_service (session w)) (SpreadsheetsGet spreadsheet_id)
  = Ok spreadsheet.
Hypothesis found : find_sheet_id spreadsheet sheet = Ok sheet_id.
Hypothesis not_none : sheet_id <> JNull.

Lemma is_none_found : is_none sheet_id = false.
Proof. destruct sheet_id; try reflexivity. now contradiction not_none. Qed.

Lemma add_rows_found (count : Z) (start_row : option Z) :
  add_rows api spreadsheet_id sheet count start_row w =
  execute api (sheets_service (session w))
    (SpreadsheetsBatchUpdate spreadsheet_id
       (insert_dimension sheet_id "ROWS" count start_row))
    (after w (sheets_service (session w)) (SpreadsheetsGet spreadsheet_id)).
Proof.
  unfold add_rows. step. rewrite metadata, found, is_none_found. reflexivity.
Qed.

Lemma add_columns_found (count : Z) (start_column : option Z) :
  add_columns api spreadsheet_id sheet count start_column w =
  execute api (sheets_service (session w))
    (SpreadsheetsBatchUpdate spreadsheet_id
       (insert_dimension sheet_id "COLUMNS" count start_column))
    (after w (sheets_service (session w)) (SpreadsheetsGet spreadsheet_id)).
Proof.
  unfold add_columns. step. rewrite metadata, found, is_none_found. reflexivity.
Qed.

(** [copy_sheet] once the source sheet is found, by the remote's answers. *)
Lemma copy_sheet_found (dst_spreadsheet dst_sheet : string) :
  forall (h : handle) (copy : call) (w2 : world),
  h = sheets_service (session w) ->
  copy = SheetsCopyTo spreadsheet_id sheet_id
           (JObj [("destinationSpreadsheetId", JStr dst_spreadsheet)]) ->
  w2 = after (after w h (SpreadsheetsGet spreadsheet_id)) h copy ->
  copy_sheet api spreadsheet_id sheet dst_spreadsheet dst_sheet w =
  match api (calls w ++ [Ev h (SpreadsheetsGet spreadsheet_id)]) h copy with
  | Raise e => (Raise e, w2)
  | Ok copy_result =>
      match py_in "title" copy_result with
      | Raise e => (Raise e, w2)
      | Ok false => (Ok (JObj [("copy", copy_result)]), w2)
      | Ok true =>
          match getitem copy_result "title" with
          | Raise e => (Raise e, w2)
          | Ok t =>
              if py_eq_str t dst_sheet
              then (Ok (JObj [("copy", copy_result)]), w2)
              else
                match getitem copy_result "sheetId" with
                | Raise e => (Raise e, w2)
                | Ok copy_sheet_id =>
                    let rename :=
                      SpreadsheetsBatchUpdate dst_spreadsheet
                        (update_title copy_sheet_id dst_sheet) in
                    (match api (calls w2) h rename with
                     | Ok rename_result =>
                         Ok (JObj [("copy", copy_result);
                                   ("rename", rename_result)])
                     | Raise e => Raise e
                     end, after w2 h rename)
                end
          end
      end
  end.
Proof.
  intros h copy w2 -> -> ->.
  unfold copy_sheet. step. rewrite metadata, found, is_none_found.
  unfold after. cbn [calls session stdout].
  destruct (api _ _ (SheetsCopyTo _ _ _)) as [copy_result|e]; [|reflexivity].
  destruct (py_in "title" copy_result) as [[|]|e]; cbn; try reflexivity.
  destruct (getitem copy_result "title") as [t|e]; cbn; [|reflexivity].
  destruct (py_eq_str t dst_sheet); cbn; [reflexivity|].
  destruct (getitem copy_result "sheetId") as [cid|e]; cbn; [|reflexivity].
  destruct (api _ _ (SpreadsheetsBatchUpdate _ _)); reflexivity.
Qed.

End Found.

(** C5. After a successful lookup, [add_rows] and [add_columns] send one
    insert request: without a start index it spans [0, count) and does not
    inherit formatting; with start index [s] it spans [s, s + count) and
    inherits from before exactly when [s > 0].  The tool returns the
    remote's answer to that request. *)
Theorem insert_request_range
    (api : remote) (w : world) (spreadsheet_id sheet : string)
    (spreadsheet sheet_id : json) (count : Z) :
  let h := sheets_service (session w) in
  let lookup := Ev h (SpreadsheetsGet spreadsheet_id) in
  let request (dimension : string) (first last : Z) (inherit : bool) :=
    SpreadsheetsBatchUpdate spreadsheet_id
      (JObj [("requests", JArr [
         JObj [("insertDimension", JObj [
           ("range", JObj [("sheetId", sheet_id);
                           ("dimension", JStr dimension);
                           ("startIndex", JInt first);
                           ("endIndex", JInt last)]);
           ("inheritFromBefore", JBool inherit)])]])]) in
  let sends (t : tool json) (c : call) :=
    t w = (api (calls w ++ [lookup]) h c,
           World (session w) (calls w ++ [lookup; Ev h c]) (stdout w)) in
  api (calls w) h (SpreadsheetsGet spreadsheet_id) = Ok spreadsheet ->
  find_sheet_id spreadsheet sheet = Ok sheet_id ->
  sheet_id <> JNull ->
  sends (add_rows api spreadsheet_id sheet count None)
        (request "ROWS" 0 count false) /\
  sends (add_columns api spreadsheet_id sheet count None)
        (request "COLUMNS" 0 count false) /\
  (forall s : Z, exists inherit : bool,
     (inherit = true <-> s > 0) /\
     sends (add_rows api spreadsheet_id sheet count (Some s))
           (request "ROWS" s (s + count) inherit)) /\
  (forall s : Z, exists inherit : bool,
     (inherit = true <-> s > 0) /\
     sends (add_columns api spreadsheet_id sheet count (Some s))
           (request "COLUMNS" s (s + count) inherit)).
Proof.
  intros h lookup request sends Hmeta Hfound Hid. subst sends request. cbv beta.
  pose proof (add_rows_found api w _ _ _ _ Hmeta Hfound Hid) as Hrows.
  pose proof (add_columns_found api w _ _ _ _ Hmeta Hfound Hid) as Hcols.
  unfold execute, after in Hrows, Hcols. cbn [calls session stdout] in Hrows, Hcols.
  fold h in Hrows, Hcols. fold lookup in Hrows, Hcols.
  assert (forall c, (calls w ++ [lookup]) ++ [Ev h c] = calls w ++ [lookup; Ev h c])
    as Hlog by (intros c; now rewrite <- app_assoc).
  repeat split.
  - now rewrite Hrows, Hlog.
  - now rewrite Hcols, Hlog.
  - intros s. exists (0 <? s)%Z. split; [rewrite Z.ltb_lt; lia|].
    now rewrite Hrows, Hlog.
  - intros s. exists (0 <? s)%Z. split; [rewrite Z.ltb_lt; lia|].
    now rewrite Hcols, Hlog.
Qed.

Lemma insert_request_range_witness :
  add_rows sample_remote "abc123" "Sheet1" 3 None idle =
  (Ok sample_book,
   World (session idle)
     [Ev 1%nat (SpreadsheetsGet "abc123");
      Ev 1%nat (SpreadsheetsBatchUpdate "abc123"
        (JObj [("requests", JArr [
           JObj [("insertDimension", JObj [
             ("range", JObj [("sheetId", JInt 13);
                             ("dimension", JStr "ROWS");
                             ("startIndex", JInt 0);
                             ("endIndex", JInt 3)]);
             ("inheritFromBefore", JBool false)])]])]))]
     []).
Proof.
  apply (proj1 (insert_request_range sample_remote idle "abc123" "Sheet1"
                  sample_book (JInt 13) 3 eq_refl eq_refl ltac:(discriminate))).
Defined.

(** ** Copying a sheet *)

Lemma getitem_py_in (v : json) (k : string) (x : json) :
  getitem v k = Ok x -> py_in k v = Ok true.
Proof.
  destruct v; cbn; try discriminate.
  destruct (assoc k fields); [reflexivity | discriminate].
Qed.

(** C2 (as amended).  After the source lookup, [copy_sheet] issues the copy
    request only when the title in the copy response equals the requested
    name, and the copy request followed by one rename request when it
    differs and the response carries the ['sheetId'] of the new sheet; a
    returned result has a ['rename'] key exactly when a rename request was
    issued. *)
Theorem copy_sheet_requests
    (api : remote) (w : world)
    (src_spreadsheet src_sheet dst_spreadsheet dst_sheet : string) :
  let h := sheets_service (session w) in
  let run := copy_sheet api src_spreadsheet src_sheet dst_spreadsheet dst_sheet in
  let lookup := Ev h (SpreadsheetsGet src_spreadsheet) in
  let copy (src_sheet_id : json) :=
    Ev h (SheetsCopyTo src_spreadsheet src_sheet_id
            (JObj [("destinationSpreadsheetId", JStr dst_spreadsheet)])) in
  let rename (copy_sheet_id : json) :=
    Ev h (SpreadsheetsBatchUpdate dst_spreadsheet
            (JObj [("requests", JArr [
               JObj [("updateSheetProperties", JObj [
                 ("properties", JObj [("sheetId", copy_sheet_id);
                                      ("title", JStr dst_sheet)]);
                 ("fields", JStr "title")])]])])) in
  (forall (src src_sheet_id copy_result title : json),
     api (calls w) h (SpreadsheetsGet src_spreadsheet) = Ok src ->
     find_sheet_id src src_sheet = Ok src_sheet_id ->
     src_sheet_id <> JNull ->
     api (calls w ++ [lookup]) h (ev_call (copy src_sheet_id)) = Ok copy_result ->
     getitem copy_result "title" = Ok title ->
     (title = JStr dst_sheet ->
        issued run w = [lookup; copy src_sheet_id] /\
        fst (run w) = Ok (JObj [("copy", copy_result)])) /\
     (title <> JStr dst_sheet ->
        forall copy_sheet_id : json,
          getitem copy_result "sheetId" = Ok copy_sheet_id ->
          issued run w = [lookup; copy src_sheet_id; rename copy_sheet_id] /\
          fst (run w) =
            match api (calls w ++ [lookup; copy src_sheet_id]) h
                      (ev_call (rename copy_sheet_id)) with
            | Ok rename_result =>
                Ok (JObj [("copy", copy_result); ("rename", rename_result)])
            | Raise e => Raise e
            end)) /\
  (forall res : json,
     fst (run w) = Ok res ->
     (py_in "rename" res = Ok true <->
      exists body,
        In (Ev h (SpreadsheetsBatchUpdate dst_spreadsheet body)) (issued run w))).
Proof.
  intros h run lookup copy rename. split.
  - intros src sid cr title Hmeta Hfound Hid Hcopy Htitle.
    subst run. unfold issued.
    rewrite (copy_sheet_found api w _ _ _ _ Hmeta Hfound Hid
               dst_spreadsheet dst_sheet h _ _ eq_refl eq_refl eq_refl).
    fold lookup. cbn [ev_call copy] in Hcopy.
    rewrite Hcopy, (getitem_py_in _ _ _ Htitle), Htitle.
    unfold after. cbn [calls session stdout].
    split.
    + intros ->. cbn [py_eq_str]. rewrite String.eqb_refl. cbn [fst snd calls].
      rewrite <- app_assoc, drop_app_length. now split.
    + intros Hne cid Hcid. apply py_eq_str_false in Hne.
      rewrite Hne, Hcid. cbn [fst snd calls].
      rewrite <- !app_assoc, drop_app_length. now split.
  - intros res. subst run. unfold issued, copy_sheet. step. fold h.
    destruct (api (calls w) h (SpreadsheetsGet src_spreadsheet)) as [src|e];
      [|discriminate].
    destruct (find_sheet_id src src_sheet) as [sid|e]; [|discriminate].
    destruct (is_none sid).
    { intros [= <-]. cbn. rewrite drop_app_length. split; [discriminate|].
      now intros [b [[=]|[]]]. }
    destruct (api _ h (SheetsCopyTo _ _ _)) as [cr|e]; [|discriminate].
    destruct (py_in "title" cr) as [[|]|e]; cbn; try discriminate.
    + destruct (getitem cr "title") as [t|e]; cbn; [|discriminate].
      destruct (py_eq_str t dst_sheet); cbn.
      * intros [= <-]. cbn. rewrite <- app_assoc, drop_app_length.
        split; [discriminate|]. now intros [b [[=]|[[=]|[]]]].
      * destruct (getitem cr "sheetId") as [cid|e]; cbn; [|discriminate].
        destruct (api _ h (SpreadsheetsBatchUpdate _ _)) as [rr|e];
          [|discriminate].
        intros [= <-]. cbn. rewrite <- !app_assoc, drop_app_length.
        split; [intros _|reflexivity].
        eexists. cbn. right. right. now left.
    + intros [= <-]. cbn. rewrite <- app_assoc, drop_app_length.
      split; [discriminate|]. now intros [b [[=]|[[=]|[]]]].
Qed.

Lemma copy_sheet_requests_witness :
  (issued (copy_sheet copy_remote "abc123" "Sheet1" "def456" "Copy of Sheet1") idle =
     [Ev 1%nat (SpreadsheetsGet "abc123");
      Ev 1%nat (SheetsCopyTo "abc123" (JInt 13)
                  (JObj [("destinationSpreadsheetId", JStr "def456")]))]) /\
  (issued (copy_sheet copy_remote "abc123" "Sheet1" "def456" "Archive") idle =
     [Ev 1%nat (SpreadsheetsGet "abc123");
      Ev 1%nat (SheetsCopyTo "abc123" (JInt 13)
                  (JObj [("destinationSpreadsheetId", JStr "def456")]));
      Ev 1%nat (SpreadsheetsBatchUpdate "def456"
                  (JObj [("requests", JArr [
                     JObj [("updateSheetProperties", JObj [
                       ("properties", JObj [("sheetId", JInt 77);
                                            ("title", JStr "Archive")]);
                       ("fields", JStr "title")])]])]))]) /\
  (exists body,
     In (Ev 1%nat (SpreadsheetsBatchUpdate "def456" body))
        (issued (copy_sheet copy_remote "abc123" "Sheet1" "def456" "Archive") idle)).
Proof.
  pose proof (copy_sheet_requests copy_remote idle "abc123" "Sheet1" "def456"
                "Copy of Sheet1") as [Hsame _].
  pose proof (copy_sheet_requests copy_remote idle "abc123" "Sheet1" "def456"
                "Archive") as [Hdiff Hkey].
  cbv zeta in Hsame, Hdiff, Hkey.
  split; [|split].
  - exact (proj1 (proj1 (Hsame sample_book (JInt 13) _ (JStr "Copy of Sheet1")
             eq_refl eq_refl ltac:(discriminate) eq_refl eq_refl) eq_refl)).
  - exact (proj1 (proj2 (Hdiff sample_book (JInt 13) _ (JStr "Copy of Sheet1")
             eq_refl eq_refl ltac:(discriminate) eq_refl eq_refl)
             ltac:(discriminate) (JInt 77) eq_refl)).
  - exact (proj1 (Hkey _ eq_refl) eq_refl).
Defined.

(** C2 (as stated) fails: the copy response has a title other than the
    requested one, and still the copy request is the only one after the
    lookup, because the response has no ['sheetId'] to rename by. *)
Lemma copy_sheet_titled_without_id_stops_after_copy :
  idless_copy_remote
    [Ev 1%nat (SpreadsheetsGet "abc123")] 1%nat
    (SheetsCopyTo "abc123" (JInt 13)
       (JObj [("destinationSpreadsheetId", JStr "def456")]))
    = Ok (JObj [("title", JStr "Copy of Sheet1")]) /\
  JStr "Copy of Sheet1" <> JStr "Archive" /\
  issued (copy_sheet idless_copy_remote "abc123" "Sheet1" "def456" "Archive") idle =
    [Ev 1%nat (SpreadsheetsGet "abc123");
     Ev 1%nat (SheetsCopyTo "abc123" (JInt 13)
                 (JObj [("destinationSpreadsheetId", JStr "def456")]))] /\
  fst (copy_sheet idless_copy_remote "abc123" "Sheet1" "def456" "Archive" idle)
    = Raise (KeyError "sheetId").
Proof. repeat split. discriminate. Qed.

(** C9. When the copy response has no ['title'], [copy_sheet] issues no
    rename request and returns [{"copy": <response>}], whatever destination
    name was asked for. *)
Theorem copy_sheet_untitled_response
    (api : remote) (w : world)
    (src_spreadsheet src_sheet dst_spreadsheet dst_sheet : string)
    (src src_sheet_id copy_result : json) :
  let h := sheets_service (session w) in
  let lookup := SpreadsheetsGet src_spreadsheet in
  let copy :=
    SheetsCopyTo src_spreadsheet src_sheet_id
      (JObj [("destinationSpreadsheetId", JStr dst_spreadsheet)]) in
  api (calls w) h lookup = Ok src ->
  find_sheet_id src src_sheet = Ok src_sheet_id ->
  src_sheet_id <> JNull ->
  api (calls w ++ [Ev h lookup]) h copy = Ok copy_result ->
  py_in "title" copy_result = Ok false ->
  copy_sheet api src_spreadsheet src_sheet dst_spreadsheet dst_sheet w =
    (Ok (JObj [("copy", copy_result)]),
     World (session w) (calls w ++ [Ev h lookup; Ev h copy]) (stdout w)) /\
  py_in "rename" (JObj [("copy", copy_result)]) = Ok false.
Proof.
  intros h lookup copy Hmeta Hfound Hid Hcopy Hno.
  rewrite (copy_sheet_found api w _ _ _ _ Hmeta Hfound Hid
             dst_spreadsheet dst_sheet h copy _ eq_refl eq_refl eq_refl).
  fold lookup. rewrite Hcopy, Hno.
  unfold after. cbn [calls session stdout]. rewrite <- app_assoc. now split.
Qed.

Lemma copy_sheet_untitled_response_witness :
  copy_sheet untitled_copy_remote "abc123" "Sheet1" "def456" "Archive" idle =
    (Ok (JObj [("copy", JObj [("sheetId", JInt 77)])]),
     World (session idle)
       [Ev 1%nat (SpreadsheetsGet "abc123");
        Ev 1%nat (SheetsCopyTo "abc123" (JInt 13)
                    (JObj [("destinationSpreadsheetId", JStr "def456")]))]
       []).
Proof.
  apply (proj1 (copy_sheet_untitled_response untitled_copy_remote idle
                  "abc123" "Sheet1" "def456" "Archive"
                  sample_book (JInt 13) (JObj [("sheetId", JInt 77)])
                  eq_refl eq_refl ltac:(discriminate) eq_refl eq_refl)).
Defined.

(** ** Writing cells *)

(** C7. [update_cells] and [batch_update_cells] each issue exactly one
    write request, in user-entered mode; every range sent is the sheet name,
    an exclamation mark and the given A1 range, so all ranges of a batch
    carry the same sheet name.  The tool returns the remote's answer. *)
Theorem cell_updates_are_sheet_qualified
    (api : remote) (w : world) (spreadsheet_id sheet : string) :
  let h := sheets_service (session w) in
  let sends (t : tool json) (c : call) :=
    t w = (api (calls w) h c, World (session w) (calls w ++ [Ev h c]) (stdout w)) in
  (forall (range : string) (data : json),
     sends (update_cells api spreadsheet_id sheet range data)
           (ValuesUpdate spreadsheet_id (sheet +:+ "!" +:+ range) "USER_ENTERED"
              (JObj [("values", data)]))) /\
  (forall ranges : list (string * json),
     sends (batch_update_cells api spreadsheet_id sheet ranges)
           (ValuesBatchUpdate spreadsheet_id
              (JObj [("valueInputOption", JStr "USER_ENTERED");
                     ("data",
                      JArr (map (fun item =>
                                   JObj [("range",
                                          JStr (sheet +:+ "!" +:+ fst item));
                                         ("values", snd item)])
                                ranges))]))) /\
  (forall data : json,
     issued (update_cells api "abc123" "Sheet1" "A1:B2" data) w =
     [Ev h (ValuesUpdate "abc123" "Sheet1!A1:B2" "USER_ENTERED"
              (JObj [("values", data)]))]).
Proof.
  intros h sends. subst sends. cbv beta. repeat split.
  intros data. unfold issued, update_cells. step.
  now rewrite drop_app_length.
Qed.

(** ** The session context *)

Lemma keeps_ret {A : Type} (a : A) : keeps_session (ret a).
Proof. intros w. reflexivity. Qed.

Lemma keeps_eval {A : Type} (r : result A) : keeps_session (eval r).
Proof. intros w. reflexivity. Qed.

Lemma keeps_lifespan_context {A : Type} (field : SpreadsheetContext -> A) :
  keeps_session (lifespan_context field).
Proof. intros w. reflexivity. Qed.

Lemma keeps_print (l : line) : keeps_session (print l).
Proof. intros w. reflexivity. Qed.

Lemma keeps_execute (api : remote) (h : handle) (c : call) :
  keeps_session (execute api h c).
Proof. intros w. reflexivity. Qed.

Lemma keeps_bind {A B : Type} (m : tool A) (k : A -> tool B) :
  keeps_session m -> (forall a, keeps_session (k a)) -> keeps_session (bind m k).
Proof.
  intros Hm Hk w. unfold bind. specialize (Hm w).
  destruct (m w) as [[a|e] w']; cbn in Hm |- *; [|assumption].
  now rewrite Hk.
Qed.

Lemma keeps_try_except {A : Type} (body : tool A) (handler : exn -> tool A) :
  keeps_session body -> (forall e, keeps_session (handler e)) ->
  keeps_session (try_except body handler).
Proof.
  intros Hb Hh w. unfold try_except. specialize (Hb w).
  destruct (body w) as [[a|e] w']; cbn in Hb |- *; [assumption|].
  now rewrite Hh.
Qed.

Create HintDb session discriminated.
#[local] Hint Resolve keeps_ret keeps_eval keeps_lifespan_context keeps_print
  keeps_execute keeps_try_except : session.

(** Walk down a tool body: binds, branches on flags and on optional values. *)
Ltac keeps :=
  repeat first
    [ apply keeps_bind; [|intros ?]
    | match goal with
      | |- keeps_session (if ?b then _ else _) => destruct b
      | |- keeps_session (match ?o with Some _ => _ | None => _ end) => destruct o
      end
    | solve [auto with session] ].

Lemma keeps_move_to_folder (api : remote) (drive : handle) (id : json) (f : string) :
  keeps_session (move_to_folder api drive id f).
Proof. unfold move_to_folder. keeps. Qed.

#[local] Hint Resolve keeps_move_to_folder : session.

Lemma keeps_mcp_get_lifespan_context (has_get_lifespan_context : bool) :
  keeps_session (mcp_get_lifespan_context has_get_lifespan_context).
Proof.
  intros w. unfold mcp_get_lifespan_context.
  now destruct has_get_lifespan_context.
Qed.

#[local] Hint Resolve keeps_mcp_get_lifespan_context : session.

Lemma keeps_invoke (api : remote) (json_dumps : json -> string)
    (has_get_lifespan_context : bool) (i : invocation) :
  keeps_session (invoke api json_dumps has_get_lifespan_context i).
Proof.
  destruct i; cbn [invoke];
    unfold get_sheet_data, update_cells, batch_update_cells, add_rows,
      add_columns, list_sheets, copy_sheet, rename_sheet, get_spreadsheet_info,
      create_spreadsheet, create_sheet, list_spreadsheets;
    keeps.
Qed.

Lemma keeps_serve (api : remote) (json_dumps : json -> string)
    (has_get_lifespan_context : bool)
    (requests : list invocation) (w : world) :
  session (snd (serve api json_dumps has_get_lifespan_context requests w))
  = session w.
Proof.
  revert w. induction requests as [|i rest IH]; intros w; [reflexivity|].
  cbn [serve].
  pose proof (keeps_invoke api json_dumps has_get_lifespan_context i w) as Hi.
  destruct (invoke api json_dumps has_get_lifespan_context i w) as [r w1].
  cbn in Hi. specialize (IH w1).
  destruct (serve api json_dumps has_get_lifespan_context rest w1) as [rs w2].
  cbn in IH |- *. congruence.
Qed.

(** C8. Serving any sequence of tool calls leaves the session context as
    it was constructed: the two client handles and the folder id are the
    same afterwards. *)
Theorem session_context_is_never_changed
    (api : remote) (json_dumps : json -> string)
    (has_get_lifespan_context : bool)
    (requests : list invocation) (w : world) :
  let w' := snd (serve api json_dumps has_get_lifespan_context requests w) in
  sheets_service (session w') = sheets_service (session w) /\
  drive_service (session w') = drive_service (session w) /\
  folder_id (session w') = folder_id (session w).
Proof. cbv zeta. rewrite keeps_serve. now repeat split. Qed.

(** ** Creating a spreadsheet *)

Lemma failed_move_prints_nothing
    (api : remote) (drive : handle) (id : json) (f : string)
    (w w' : world) (e : exn) :
  move_to_folder api drive id f w = (Raise e, w') -> stdout w' = stdout w.
Proof.
  unfold move_to_folder. step.
  destruct (api (calls w) drive (FilesGet id "parents")) as [file|e1];
    [|now intros [= _ <-]].
  destruct (result_bind _ _) as [parents|e1]; [|now intros [= _ <-]].
  cbn [calls]. destruct (api _ drive (FilesUpdate _ _ _ _)) as [moved|e1];
    [discriminate | now intros [= _ <-]].
Qed.

Section Create.

Variable api : remote.
Variables (w : world) (title f : string) (spreadsheet spreadsheet_id : json).

Hypothesis configured : nonempty (folder_id (session w)) = Some f.
Hypothesis created_ok :
  api (calls w) (sheets_service (session w)) (create_request title) = Ok spreadsheet.
Hypothesis id_read : py_get spreadsheet "spreadsheetId" JNull = Ok spreadsheet_id.

Lemma create_spreadsheet_run :
  create_spreadsheet api title w =
  match move_to_folder api (drive_service (session w)) spreadsheet_id f
          (just_created w title spreadsheet_id) with
  | (Ok _, w2) =>
      (created spreadsheet spreadsheet_id title (folder_id (session w)), w2)
  | (Raise e, w2) =>
      (created spreadsheet spreadsheet_id title (folder_id (session w)),
       World (session w2) (calls w2) (stdout w2 ++ [LMoveWarning e]))
  end.
Proof.
  unfold create_spreadsheet.
  unfold bind at 1 2 3 4 5 6. unfold lifespan_context, execute, eval, print.
  cbn [session calls stdout]. fold (create_request title).
  rewrite created_ok, id_read, configured. fold (just_created w title spreadsheet_id).
  unfold bind, try_except, eval, print.
  destruct (move_to_folder api _ spreadsheet_id f _) as [[u|e] w2]; reflexivity.
Qed.

Lemma created_fields (res : json) :
  created spreadsheet spreadsheet_id title (folder_id (session w)) = Ok res ->
  getitem res "spreadsheetId" = Ok spreadsheet_id /\
  getitem res "folder" = Ok (JStr f).
Proof.
  unfold created. rewrite configured.
  destruct (py_get spreadsheet "properties" _) as [props|?]; cbn; [|discriminate].
  destruct (py_get props "title" _) as [t|?]; cbn; [|discriminate].
  destruct (py_get spreadsheet "sheets" _) as [ss|?]; cbn; [|discriminate].
  destruct (py_iter ss) as [l|?]; cbn; [|discriminate].
  destruct (map_result _ l) as [names|?]; cbn; [|discriminate].
  now intros [= <-].
Qed.

End Create.

(** C3 (as amended).  With a working folder configured, whatever happens in
    the folder-move step, [create_spreadsheet] returns the value of its
    [return] expression: a failure of the move is caught, a warning is
    printed in place of the confirmation line, and the result carries the
    [spreadsheetId] of the create response.  Its ['folder'] field is the
    configured folder id, after a failed move as after a successful one. *)
Theorem create_spreadsheet_catches_failed_move
    (api : remote) (w : world) (title f : string)
    (spreadsheet spreadsheet_id : json) :
  let sheets := sheets_service (session w) in
  let drive := drive_service (session w) in
  let create :=
    SpreadsheetsCreate (JObj [("properties", JObj [("title", JStr title)])])
      "spreadsheetId,properties,sheets" in
  let w1 :=
    World (session w) (calls w ++ [Ev sheets create])
          (stdout w ++ [LCreated spreadsheet_id]) in
  let returned := created spreadsheet spreadsheet_id title (folder_id (session w)) in
  nonempty (folder_id (session w)) = Some f ->
  api (calls w) sheets create = Ok spreadsheet ->
  py_get spreadsheet "spreadsheetId" JNull = Ok spreadsheet_id ->
  (forall (e : exn) (w2 : world),
     move_to_folder api drive spreadsheet_id f w1 = (Raise e, w2) ->
     create_spreadsheet api title w =
       (returned,
        World (session w2) (calls w2)
              (stdout w ++ [LCreated spreadsheet_id; LMoveWarning e]))) /\
  (forall w2 : world,
     move_to_folder api drive spreadsheet_id f w1 = (Ok tt, w2) ->
     create_spreadsheet api title w = (returned, w2)) /\
  (forall res : json,
     returned = Ok res ->
     getitem res "spreadsheetId" = Ok spreadsheet_id /\
     getitem res "folder" = Ok (JStr f)).
Proof.
  intros sheets drive create w1 returned Hf Hcreate Hid.
  pose proof (create_spreadsheet_run api w title f _ _ Hf Hcreate Hid) as Hrun.
  change (just_created w title spreadsheet_id) with w1 in Hrun.
  fold drive returned in Hrun.
  repeat split.
  - intros e w2 Hmove. rewrite Hrun, Hmove.
    rewrite (failed_move_prints_nothing _ _ _ _ _ _ _ Hmove).
    subst w1. cbn [stdout]. now rewrite <- app_assoc.
  - intros w2 Hmove. now rewrite Hrun, Hmove.
  - eapply created_fields; eassumption.
  - eapply created_fields; eassumption.
Qed.

Lemma create_spreadsheet_catches_failed_move_witness :
  create_spreadsheet refusing_remote "Budget" in_folder =
  (Ok (JObj [("spreadsheetId", JStr "s-1"); ("title", JStr "Budget");
             ("sheets", JArr [JStr "Sheet1"]); ("folder", JStr "F1")]),
   World (session in_folder)
     [Ev 1%nat (create_request "Budget");
      Ev 2%nat (FilesGet (JStr "s-1") "parents");
      Ev 2%nat (FilesUpdate (JStr "s-1") "F1" "root0" "id, parents")]
     [LCreated (JStr "s-1"); LMoveWarning (RemoteError "403")]).
Proof.
  apply (proj1 (create_spreadsheet_catches_failed_move refusing_remote in_folder
                  "Budget" "F1" new_spreadsheet (JStr "s-1")
                  eq_refl eq_refl eq_refl)
           (RemoteError "403") _ eq_refl).
Defined.

(** C3 (as stated) fails: the move request is refused, and the result
    still names the configured folder; it is the very result of a run whose
    move went through. *)
Lemma failed_move_still_reports_folder :
  issued (create_spreadsheet refusing_remote "Budget") in_folder =
    [Ev 1%nat (create_request "Budget");
     Ev 2%nat (FilesGet (JStr "s-1") "parents");
     Ev 2%nat (FilesUpdate (JStr "s-1") "F1" "root0" "id, parents")] /\
  refusing_remote
    [Ev 1%nat (create_request "Budget");
     Ev 2%nat (FilesGet (JStr "s-1") "parents")]
    2%nat (FilesUpdate (JStr "s-1") "F1" "root0" "id, parents")
    = Raise (RemoteError "403") /\
  fst (create_spreadsheet refusing_remote "Budget" in_folder) =
    Ok (JObj [("spreadsheetId", JStr "s-1"); ("title", JStr "Budget");
              ("sheets", JArr [JStr "Sheet1"]); ("folder", JStr "F1")]) /\
  fst (create_spreadsheet refusing_remote "Budget" in_folder) =
    fst (create_spreadsheet moving_remote "Budget" in_folder).
Proof. repeat split. Qed.

(** ** Spreadsheet info *)






(** ** Credential resolution *)

Section TokenCache.

Variable cfg : config.
Variable lib : google_auth.
Variable d : disk.

(** The OAuth path is entered exactly when the service-account key is not
    configured, is missing, or fails to load. *)
Lemma service_account_unavailable :
  service_account_creds cfg lib d = None <->
  SERVICE_ACCOUNT_PATH cfg = "" \/
  files d !! SERVICE_ACCOUNT_PATH cfg = None \/
  exists content e,
    files d !! SERVICE_ACCOUNT_PATH cfg = Some content /\
    from_service_account_file lib content = Raise e.
Proof.
  unfold service_account_creds.
  destruct (String.eqb_spec (SERVICE_ACCOUNT_PATH cfg) "") as [Hempty|Hpath]; cbn.
  { split; [now left | reflexivity]. }
  destruct (files d !! SERVICE_ACCOUNT_PATH cfg) as [content|] eqn:Hfile.
  - destruct (from_service_account_file lib content) as [key|e] eqn:Hload.
    + split; [discriminate|].
      intros [?|[?|(c & e & [= <-] & He)]]; congruence.
    + split; [|reflexivity]. intros _. right. right. now exists content, e.
  - split; [|reflexivity]. intros _. right. now left.
Qed.

Lemma service_account_path_writes_nothing (creds : credentials) :
  service_account_creds cfg lib d = Some creds ->
  resolve_credentials cfg lib d = (Ok creds, d).
Proof. intros H. unfold resolve_credentials. now rewrite H. Qed.

Lemma valid_cache_writes_nothing (c : user_credentials) :
  service_account_creds cfg lib d = None ->
  cached_creds cfg lib d = Ok (Some c) -> valid c = true ->
  resolve_credentials cfg lib d = (Ok (User c), d).
Proof.
  intros Hsa Hc Hv. unfold resolve_credentials, oauth_creds.
  now rewrite Hsa, Hc, Hv.
Qed.

Lemma oauth_login (cached : option user_credentials) :
  service_account_creds cfg lib d = None ->
  cached_creds cfg lib d = Ok cached ->
  (forall c, cached = Some c -> valid c = false) ->
  resolve_credentials cfg lib d =
  match fresh_creds cfg lib cached d with
  | Ok c =>
      match write_file d (TOKEN_PATH cfg) (to_json lib c) with
      | Ok d' => (Ok (User c), d')
      | Raise e => (Raise e, d)
      end
  | Raise e => (Raise e, d)
  end.
Proof.
  intros Hsa Hc Hinvalid. unfold resolve_credentials, oauth_creds.
  rewrite Hsa, Hc.
  destruct cached as [c|]; [rewrite (Hinvalid c eq_refl)|];
    unfold login; destruct (fresh_creds cfg lib _ d) as [c'|e];
    try reflexivity; now destruct (write_file d _ _).
Qed.

End TokenCache.

(** C4 (as amended).  The service-account path writes nothing.  In the
    OAuth path (no usable service-account key), a cached token that is still
    valid is used as it is and nothing is written; when the cached token is
    absent or invalid and the refresh or the interactive flow succeeds, the
    new token is written to the token-cache path, replacing whatever the
    file held, unless the file cannot be opened for writing, in which case
    start-up fails with that error and the disk is as it was; when the
    refresh or the flow fails, start-up fails and nothing is written. *)
Theorem token_saved_when_login_was_needed
    (cfg : config) (lib : google_auth) (d : disk) :
  let run := resolve_credentials cfg lib d in
  (forall creds,
     service_account_creds cfg lib d = Some creds -> run = (Ok creds, d)) /\
  (service_account_creds cfg lib d = None ->
     (forall c,
        cached_creds cfg lib d = Ok (Some c) -> valid c = true ->
        run = (Ok (User c), d)) /\
     (forall cached,
        cached_creds cfg lib d = Ok cached ->
        (forall c, cached = Some c -> valid c = false) ->
        (forall c,
           fresh_creds cfg lib cached d = Ok c ->
           (unwritable d !! TOKEN_PATH cfg = None ->
              fst run = Ok (User c) /\
              files (snd run) = <[TOKEN_PATH cfg := to_json lib c]> (files d) /\
              files (snd run) !! TOKEN_PATH cfg = Some (to_json lib c) /\
              writes (snd run) = writes d ++ [(TOKEN_PATH cfg, to_json lib c)]) /\
           (forall e,
              unwritable d !! TOKEN_PATH cfg = Some e -> run = (Raise e, d))) /\
        (forall e,
           fresh_creds cfg lib cached d = Raise e -> run = (Raise e, d)))).
Proof.
  intros run. subst run. split.
  - apply service_account_path_writes_nothing.
  - intros Hsa. split.
    + intros c. now apply valid_cache_writes_nothing.
    + intros cached Hc Hinvalid.
      rewrite (oauth_login cfg lib d cached Hsa Hc Hinvalid).
      split.
      * intros c ->. unfold write_file. split.
        -- intros ->. cbn. repeat split. apply lookup_insert_eq.
        -- now intros e ->.
      * now intros e ->.
Qed.

Lemma token_saved_when_login_was_needed_witness :
  (fst (resolve_credentials default_config sample_auth first_run_disk) =
     Ok (User granted) /\
   files (snd (resolve_credentials default_config sample_auth first_run_disk))
     !! "token.json" = Some "token=granted" /\
   writes (snd (resolve_credentials default_config sample_auth first_run_disk)) =
     [("token.json", "token=granted")]) /\
  resolve_credentials default_config sample_auth locked_disk =
    (Raise (OSError "Permission denied"), locked_disk).
Proof.
  split.
  - pose proof (proj2 (token_saved_when_login_was_needed default_config
                         sample_auth first_run_disk)) as H.
    cbv zeta in H.
    assert (service_account_creds default_config sample_auth first_run_disk = None)
      as Hsa by (vm_compute; reflexivity).
    destruct (H Hsa) as [_ Hlogin].
    assert (cached_creds default_config sample_auth first_run_disk = Ok None)
      as Hcache by (vm_compute; reflexivity).
    destruct (Hlogin None Hcache ltac:(discriminate)) as [Hsaved _].
    destruct (Hsaved granted) as [Hwritten _].
    { vm_compute. reflexivity. }
    destruct Hwritten as (Hcreds & _ & Hfile & Hwrites).
    { vm_compute. reflexivity. }
    repeat split; assumption.
  - pose proof (proj2 (token_saved_when_login_was_needed default_config
                         sample_auth locked_disk)) as H.
    cbv zeta in H.
    assert (service_account_creds default_config sample_auth locked_disk = None)
      as Hsa by (vm_compute; reflexivity).
    destruct (H Hsa) as [_ Hlogin].
    assert (cached_creds default_config sample_auth locked_disk = Ok None)
      as Hcache by (vm_compute; reflexivity).
    destruct (Hlogin None Hcache ltac:(discriminate)) as [Hsaved _].
    destruct (Hsaved granted) as [_ Hrefused].
    { vm_compute. reflexivity. }
    apply Hrefused. vm_compute. reflexivity.
Defined.

(** C4 (as stated) fails: with a valid cached token the OAuth path is taken
    and nothing is written; the cache file keeps its contents, which are not
    the serialized token. *)
Lemma valid_cached_token_is_not_rewritten :
  service_account_creds default_config sample_auth cached_disk = None /\
  fst (resolve_credentials default_config sample_auth cached_disk) =
    Ok (User cached_good) /\
  writes (snd (resolve_credentials default_config sample_auth cached_disk)) = [] /\
  files (snd (resolve_credentials default_config sample_auth cached_disk))
    !! "token.json" = Some "good" /\
  to_json sample_auth cached_good <> "good".
Proof. vm_compute. repeat split. discriminate. Qed.

(** * Further properties of the tools *)

(** ** Comprehensions and the lookup loop *)

Lemma map_result_Forall2 {A B : Type} (f : A -> result B) (l : list A) (ys : list B) :
  map_result f l = Ok ys <-> Forall2 (fun x y => f x = Ok y) l ys.
Proof.
  revert ys. induction l as [|x l IH]; intros ys; cbn.
  - split; [intros [= <-]; constructor | now inversion 1].
  - destruct (f x) as [y|e] eqn:Hx; cbn.
    + destruct (map_result f l) as [zs|e] eqn:Hl; cbn.
      * split.
        -- intros [= <-]. constructor; [assumption | now apply IH].
        -- inversion 1 as [|? y' ? zs' Hy Hzs]; subst.
           apply IH in Hzs. congruence.
      * split; [discriminate|].
        inversion 1 as [|? y' ? zs' Hy Hzs]; subst. apply IH in Hzs. discriminate.
    + split; [discriminate|].
      inversion 1 as [|? y' ? zs' Hy Hzs]; subst. congruence.
Qed.

Lemma map_result_first_fault {A B : Type} (f : A -> result B)
    (before : list A) (x : A) (rest : list A) (e : exn) :
  Forall (fun a => exists b, f a = Ok b) before ->
  f x = Raise e ->
  map_result f (before ++ x :: rest) = Raise e.
Proof.
  induction 1 as [|a before [b Hb] _ IH]; intros Hx; cbn.
  - now rewrite Hx.
  - rewrite Hb. cbn. now rewrite IH.
Qed.

Lemma scan_sheets_sound (sheets : list json) (sheet : string) (id : json) :
  scan_sheets sheets sheet = Ok id -> id <> JNull ->
  exists before s rest,
    sheets = before ++ s :: rest /\
    Forall (other_title sheet) before /\
    title_of s = Ok (JStr sheet) /\
    sheet_id_of s = Ok id.
Proof.
  induction sheets as [|s sheets IH]; cbn [scan_sheets]; intros Hscan Hid.
  - congruence.
  - destruct (title_of s) as [t|e] eqn:Ht; cbn in Hscan; [|discriminate].
    destruct (py_eq_str t sheet) eqn:Heq.
    + apply py_eq_str_true in Heq. subst t.
      exists [], s, sheets. repeat split; [constructor | assumption..].
    + destruct (IH Hscan Hid) as (before & s' & rest & -> & Hb & Ht' & Hid').
      exists (s :: before), s', rest. repeat split; try assumption.
      constructor; [|assumption].
      exists t. split; [assumption | now apply py_eq_str_false].
Qed.

(** X1. An id returned by the lookup always belongs to a sheet titled
    exactly [sheet], and every descriptor before that sheet has a different
    title: the lookup never returns the id of a sheet with another name. *)
Theorem find_sheet_id_sound (spreadsheet : json) (sheet : string) (id : json) :
  find_sheet_id spreadsheet sheet = Ok id ->
  id <> JNull ->
  exists (ss : json) (before : list json) (s : json) (rest : list json),
    getitem spreadsheet "sheets" = Ok ss /\
    py_iter ss = Ok (before ++ s :: rest) /\
    Forall (other_title sheet) before /\
    title_of s = Ok (JStr sheet) /\
    sheet_id_of s = Ok id.
Proof.
  unfold find_sheet_id. intros Hfind Hid.
  destruct (getitem spreadsheet "sheets") as [ss|e]; cbn in Hfind; [|discriminate].
  destruct (py_iter ss) as [l|e] eqn:Hit; cbn in Hfind; [|discriminate].
  destruct (scan_sheets_sound _ _ _ Hfind Hid) as (before & s & rest & -> & H).
  exists ss, before, s, rest. now repeat split.
Qed.

Lemma find_sheet_id_sound_witness :
  exists (ss : json) (before : list json) (s : json) (rest : list json),
    getitem sample_book "sheets" = Ok ss /\
    py_iter ss = Ok (before ++ s :: rest) /\
    Forall (other_title "Sheet1") before /\
    title_of s = Ok (JStr "Sheet1") /\
    sheet_id_of s = Ok (JInt 13).
Proof.
  apply (find_sheet_id_sound sample_book "Sheet1" (JInt 13) eq_refl).
  discriminate.
Defined.

(** ** Listing sheets *)

(** X2. [list_sheets] issues the metadata request only.  When every
    descriptor has a title it returns the titles in the order of the
    metadata; the first descriptor without one makes the whole call raise,
    and no partial list is returned. *)
Theorem list_sheets_titles_in_order
    (api : remote) (w : world) (spreadsheet_id : string)
    (spreadsheet ss : json) (sheets : list json) :
  let h := sheets_service (session w) in
  let w' := World (session w) (calls w ++ [Ev h (SpreadsheetsGet spreadsheet_id)])
                  (stdout w) in
  api (calls w) h (SpreadsheetsGet spreadsheet_id) = Ok spreadsheet ->
  getitem spreadsheet "sheets" = Ok ss ->
  py_iter ss = Ok sheets ->
  (forall titles : list json,
     Forall2 (fun s t => title_of s = Ok t) sheets titles ->
     list_sheets api spreadsheet_id w = (Ok (JArr titles), w')) /\
  (forall (before : list json) (s : json) (rest : list json) (e : exn),
     sheets = before ++ s :: rest ->
     Forall titled before ->
     title_of s = Raise e ->
     list_sheets api spreadsheet_id w = (Raise e, w')).
Proof.
  intros h w' Hmeta Hss Hit. split.
  - intros titles Hall. apply map_result_Forall2 in Hall.
    unfold list_sheets. step. fold h. rewrite Hmeta, Hss. cbn.
    rewrite Hit. cbn. now rewrite Hall.
  - intros before s rest e -> Hbefore Hs.
    unfold list_sheets. step. fold h. rewrite Hmeta, Hss. cbn.
    rewrite Hit. cbn.
    now rewrite (map_result_first_fault title_of before s rest e Hbefore Hs).
Qed.

Lemma list_sheets_titles_in_order_witness :
  list_sheets office_remote "abc123" idle =
    (Ok (JArr [JStr "Sheet1"; JStr "Data"; JStr "Archive"]),
     World (session idle) [Ev 1%nat (SpreadsheetsGet "abc123")] []) /\
  list_sheets idless_remote "abc123" in_folder =
    (Ok (JArr [JStr "Sheet1"; JStr "Sheet2"]),
     World (session in_folder) [Ev 1%nat (SpreadsheetsGet "abc123")] []) /\
  list_sheets bare_sheet_remote "abc123" idle =
    (Raise (KeyError "properties"),
     World (session idle) [Ev 1%nat (SpreadsheetsGet "abc123")] []).
Proof.
  split; [|split].
  - apply (proj1 (list_sheets_titles_in_order office_remote idle "abc123"
                    three_sheets _ _ eq_refl eq_refl eq_refl)).
    repeat constructor.
  - apply (proj1 (list_sheets_titles_in_order idless_remote in_folder "abc123"
                    _ _ _ eq_refl eq_refl eq_refl)).
    repeat constructor.
  - apply (proj2 (list_sheets_titles_in_order bare_sheet_remote idle "abc123"
                    _ _ _ eq_refl eq_refl eq_refl) [] (JObj []) [] _ eq_refl).
    + constructor.
    + reflexivity.
Defined.

(** X3. Metadata without a ['sheets'] key is not read as an empty sheet
    list by the tools that scan it: [add_rows], [add_columns],
    [rename_sheet], [copy_sheet] and [list_sheets] raise [KeyError] after
    the metadata request, and issue nothing else. *)
Theorem metadata_without_sheets_raises
    (api : remote) (w : world) (spreadsheet_id sheet : string)
    (fields : list (string * json)) :
  let h := sheets_service (session w) in
  let w' := World (session w) (calls w ++ [Ev h (SpreadsheetsGet spreadsheet_id)])
                  (stdout w) in
  api (calls w) h (SpreadsheetsGet spreadsheet_id) = Ok (JObj fields) ->
  assoc "sheets" fields = None ->
  (forall count start,
     add_rows api spreadsheet_id sheet count start w = (Raise (KeyError "sheets"), w')) /\
  (forall count start,
     add_columns api spreadsheet_id sheet count start w
       = (Raise (KeyError "sheets"), w')) /\
  (forall new_name,
     rename_sheet api spreadsheet_id sheet new_name w
       = (Raise (KeyError "sheets"), w')) /\
  (forall dst dst_sheet,
     copy_sheet api spreadsheet_id sheet dst dst_sheet w
       = (Raise (KeyError "sheets"), w')) /\
  list_sheets api spreadsheet_id w = (Raise (KeyError "sheets"), w').
Proof.
  intros h w' Hmeta Hno.
  assert (find_sheet_id (JObj fields) sheet = Raise (KeyError "sheets")) as Hfind.
  { unfold find_sheet_id. cbn. now rewrite Hno. }
  repeat split; intros.
  - unfold add_rows. step. fold h. now rewrite Hmeta, Hfind.
  - unfold add_columns. step. fold h. now rewrite Hmeta, Hfind.
  - unfold rename_sheet. step. fold h. now rewrite Hmeta, Hfind.
  - unfold copy_sheet. step. fold h. now rewrite Hmeta, Hfind.
  - unfold list_sheets. step. fold h. rewrite Hmeta. cbn. now rewrite Hno.
Qed.

Lemma metadata_without_sheets_raises_witness :
  list_sheets sheetless_remote "abc123" idle =
    (Raise (KeyError "sheets"),
     World (session idle) [Ev 1%nat (SpreadsheetsGet "abc123")] []).
Proof.
  apply (proj2 (proj2 (proj2 (proj2
    (metadata_without_sheets_raises sheetless_remote idle "abc123" "Sheet1"
       _ eq_refl eq_refl))))).
Defined.

(** ** Renaming a sheet *)

(** X4. [rename_sheet] renames the first sheet titled [sheet]: after the
    metadata request it sends one [updateSheetProperties] request that
    carries the id of that sheet, the new title and the field mask
    ["title"], to the same spreadsheet, and returns the remote's answer.
    Later sheets with the same title are not touched. *)
Theorem rename_sheet_renames_first_match
    (api : remote) (w : world) (spreadsheet sheet new_name : string)
    (spreadsheet_data ss : json) (before : list json) (s : json)
    (rest : list json) (sheet_id : json) :
  let h := sheets_service (session w) in
  let lookup := Ev h (SpreadsheetsGet spreadsheet) in
  let rename :=
    SpreadsheetsBatchUpdate spreadsheet
      (JObj [("requests", JArr [
         JObj [("updateSheetProperties", JObj [
           ("properties", JObj [("sheetId", sheet_id); ("title", JStr new_name)]);
           ("fields", JStr "title")])]])]) in
  api (calls w) h (SpreadsheetsGet spreadsheet) = Ok spreadsheet_data ->
  getitem spreadsheet_data "sheets" = Ok ss ->
  py_iter ss = Ok (before ++ s :: rest) ->
  Forall (other_title sheet) before ->
  title_of s = Ok (JStr sheet) ->
  sheet_id_of s = Ok sheet_id ->
  sheet_id <> JNull ->
  rename_sheet api spreadsheet sheet new_name w =
    (api (calls w ++ [lookup]) h rename,
     World (session w) (calls w ++ [lookup; Ev h rename]) (stdout w)).
Proof.
  intros h lookup rename Hmeta Hss Hit Hbefore Ht Hid Hnn.
  assert (find_sheet_id spreadsheet_data sheet = Ok sheet_id) as Hfind.
  { rewrite (proj1 (find_sheet_id_first_exact_title _ _ _ sheet Hss Hit)
               before s rest eq_refl Hbefore Ht).
    exact Hid. }
  unfold rename_sheet. step. fold h.
  rewrite Hmeta, Hfind, (is_none_found _ _ _ Hfind Hnn).
  subst lookup rename. unfold update_title. cbn [calls session stdout].
  now rewrite <- app_assoc.
Qed.

Lemma rename_sheet_renames_first_match_witness :
  rename_sheet sample_remote "abc123" "Sheet1" "Main" idle =
    (Ok sample_book,
     World (session idle)
       [Ev 1%nat (SpreadsheetsGet "abc123");
        Ev 1%nat (rename_request "abc123" (JInt 13) "Main")]
       []).
Proof.
  apply (rename_sheet_renames_first_match sample_remote idle "abc123" "Sheet1"
           "Main" sample_book _
           [sheet_descriptor "sheet1" 11; sheet_descriptor "Sheet" 12]
           (sheet_descriptor "Sheet1" 13) [sheet_descriptor "Sheet1" 14]
           (JInt 13) eq_refl eq_refl eq_refl ltac:(other_titles)
           eq_refl eq_refl ltac:(discriminate)).
Defined.

(** ** Reading cells *)

(** X5. [get_sheet_data] issues one read request.  An omitted range and an
    empty range both read the whole sheet (the range is the bare sheet
    name); any other range is qualified as [sheet!range].  The result is the
    ['values'] entry of the response, or an empty array when the response
    has none; a failed request is passed on. *)
Theorem get_sheet_data_reads_range
    (api : remote) (w : world) (spreadsheet_id sheet : string)
    (range : option string) :
  let h := sheets_service (session w) in
  let full_range :=
    match range with
    | Some r => if String.eqb r "" then sheet else sheet +:+ "!" +:+ r
    | None => sheet
    end in
  let read := ValuesGet spreadsheet_id full_range in
  issued (get_sheet_data api spreadsheet_id sheet range) w = [Ev h read] /\
  (forall fields values,
     api (calls w) h read = Ok (JObj fields) ->
     assoc "values" fields = Some values ->
     fst (get_sheet_data api spreadsheet_id sheet range w) = Ok values) /\
  (forall fields,
     api (calls w) h read = Ok (JObj fields) ->
     assoc "values" fields = None ->
     fst (get_sheet_data api spreadsheet_id sheet range w) = Ok (JArr [])) /\
  (forall e,
     api (calls w) h read = Raise e ->
     fst (get_sheet_data api spreadsheet_id sheet range w) = Raise e).
Proof.
  intros h full_range read.
  assert (match nonempty range with
          | Some r => qualified sheet r
          | None => sheet
          end = full_range) as Hrange.
  { subst full_range. destruct range as [r|]; cbn; [|reflexivity].
    now destruct (String.eqb r ""). }
  unfold issued, get_sheet_data. step. rewrite Hrange. fold h. fold read.
  repeat split.
  - destruct (api (calls w) h read); cbn; now rewrite drop_app_length.
  - intros fields values -> Hv. cbn. now rewrite Hv.
  - intros fields -> Hv. cbn. now rewrite Hv.
  - now intros e ->.
Qed.

Lemma get_sheet_data_reads_range_witness :
  fst (get_sheet_data office_remote "abc123" "Data" (Some "") idle) = Ok (JArr []).
Proof.
  apply (proj1 (proj2 (proj2
    (get_sheet_data_reads_range office_remote idle "abc123" "Data" (Some ""))))
    [("range", JStr "Data!A1:B2")] eq_refl eq_refl).
Defined.

(** ** Every tool *)

(** Unfold the handler an invocation runs. *)
Ltac handlers :=
  cbn [invoke];
  unfold get_sheet_data, update_cells, batch_update_cells, add_rows,
    add_columns, list_sheets, copy_sheet, rename_sheet, get_spreadsheet_info,
    create_spreadsheet, create_sheet, list_spreadsheets, move_to_folder,
    mcp_get_lifespan_context.

(** Case-split on every answer and intermediate value a run depends on. *)
Ltac outcomes :=
  repeat (first
            [ match goal with
              | |- context [nonempty ?o] => destruct (nonempty o)
              end
            | match goal with
              | |- context [match ?x with _ => _ end] =>
                  lazymatch x with
                  | result_bind _ _ => destruct x
                  | py_get _ _ _ => destruct x
                  | getitem _ _ => destruct x
                  | find_sheet_id _ _ => destruct x
                  | spreadsheet_info _ => destruct x
                  | created _ _ _ _ => destruct x
                  | is_none _ => destruct x
                  | ?f _ _ _ => is_var f; destruct x
                  | _ => is_var x; destruct x
                  end
              end ];
          cbn [fst snd session calls stdout]).

(** Normalise the log of a finished run. *)
Ltac log :=
  cbn [fst snd session calls stdout];
  rewrite <- ?app_assoc; cbn [app];
  rewrite ?drop_app_length, ?drop_all, ?app_nil_r.



(** X7. Requests go to the client they belong to: every request a tool
    issues is sent on the Sheets handle of the session, except the
    [files()] requests of [create_spreadsheet] and [list_spreadsheets],
    which are sent on its Drive handle. *)
Theorem requests_are_routed
    (api : remote) (json_dumps : json -> string)
    (has_get_lifespan_context : bool) (i : invocation) (w : world) :
  Forall (routed (session w))
         (issued (invoke api json_dumps has_get_lifespan_context i) w).
Proof.
  unfold issued. destruct i; handlers; step; outcomes; log;
    repeat constructor.
Qed.

(** X8. A handler issues at most three remote requests, whatever the remote
    answers.  Every tool issues at least one, and so does the resource
    [get_spreadsheet_info] when the server object hands out the lifespan
    context; when it does not, the resource issues none. *)
Theorem request_count_bounds
    (api : remote) (json_dumps : json -> string)
    (has_get_lifespan_context : bool) (i : invocation) (w : world) :
  let sent := issued (invoke api json_dumps has_get_lifespan_context i) w in
  (length sent <= 3)%nat /\
  ((has_get_lifespan_context = true \/
    forall id, i <> GetSpreadsheetInfo id) ->
   (1 <= length sent)%nat) /\
  (has_get_lifespan_context = false ->
   forall id, i = GetSpreadsheetInfo id -> sent = []).
Proof.
  intros sent. subst sent. unfold issued. split; [|split].
  - destruct i; handlers; step; outcomes; log; cbn [length]; lia.
  - intros Hreach. destruct i; handlers; step;
      try (destruct Hreach as [-> | Hother];
           [|now contradiction (Hother spreadsheet_id)]);
      outcomes; log; cbn [length]; lia.
  - intros -> id ->. handlers. step. now rewrite drop_all.
Qed.

Lemma request_count_bounds_witness :
  (1 <= length (issued (invoke copy_remote dumps_indent2 false
                          (CopySheet "abc123" "Sheet1" "def456" "Archive"))
                       idle))%nat /\
  issued (invoke copy_remote dumps_indent2 false (GetSpreadsheetInfo "abc123"))
         idle = [].
Proof.
  pose proof (request_count_bounds copy_remote dumps_indent2 false
                (CopySheet "abc123" "Sheet1" "def456" "Archive") idle)
    as (_ & Hsome & _).
  pose proof (request_count_bounds copy_remote dumps_indent2 false
                (GetSpreadsheetInfo "abc123") idle)
    as (_ & _ & Hnone).
  split.
  - apply Hsome. right. discriminate.
  - exact (Hnone eq_refl "abc123" eq_refl).
Defined.

(** ** Creating a spreadsheet: the folder step *)

Lemma join_strs_concat (sep : string) (ps : list string) :
  join_strs sep (map JStr ps) = Ok (String.concat sep ps).
Proof.
  induction ps as [|p ps IH]; [reflexivity|].
  cbn [map join_strs]. destruct ps as [|q ps]; [reflexivity|].
  cbn [map] in IH |- *. rewrite IH. reflexivity.
Qed.

Lemma created_without_folder
    (spreadsheet spreadsheet_id : json) (title : string) (folder : option string)
    (res : json) :
  nonempty folder = None ->
  created spreadsheet spreadsheet_id title folder = Ok res ->
  getitem res "spreadsheetId" = Ok spreadsheet_id /\
  getitem res "folder" = Ok (JStr "root").
Proof.
  intros Hnone. unfold created. rewrite Hnone.
  destruct (py_get spreadsheet "properties" _) as [props|?]; cbn; [|discriminate].
  destruct (py_get props "title" _) as [t|?]; cbn; [|discriminate].
  destruct (py_get spreadsheet "sheets" _) as [ss|?]; cbn; [|discriminate].
  destruct (py_iter ss) as [l|?]; cbn; [|discriminate].
  destruct (map_result _ l) as [names|?]; cbn; [|discriminate].
  now intros [= <-].
Qed.

(** X9. Without a working folder ([None] or the empty string)
    [create_spreadsheet] issues the create request only, never a Drive
    request, and reports the folder ['root'].  A create response without
    ['properties'] and ['sheets'] is completed with the requested title and
    an empty sheet list. *)
Theorem create_spreadsheet_without_folder
    (api : remote) (w : world) (title : string) (fields : list (string * json)) :
  let h := sheets_service (session w) in
  let create :=
    SpreadsheetsCreate (JObj [("properties", JObj [("title", JStr title)])])
      "spreadsheetId,properties,sheets" in
  let spreadsheet_id := default JNull (assoc "spreadsheetId" fields) in
  (folder_id (session w) = None \/ folder_id (session w) = Some "") ->
  api (calls w) h create = Ok (JObj fields) ->
  issued (create_spreadsheet api title) w = [Ev h create] /\
  stdout (snd (create_spreadsheet api title w)) = stdout w ++ [LCreated spreadsheet_id] /\
  (forall res,
     fst (create_spreadsheet api title w) = Ok res ->
     getitem res "spreadsheetId" = Ok spreadsheet_id /\
     getitem res "folder" = Ok (JStr "root")) /\
  (assoc "properties" fields = None -> assoc "sheets" fields = None ->
   fst (create_spreadsheet api title w) =
     Ok (JObj [("spreadsheetId", spreadsheet_id); ("title", JStr title);
               ("sheets", JArr []); ("folder", JStr "root")])).
Proof.
  intros h create spreadsheet_id Hfolder Hcreate.
  assert (nonempty (folder_id (session w)) = None) as Hnone.
  { destruct Hfolder as [-> | ->]; reflexivity. }
  assert (create_spreadsheet api title w =
          (created (JObj fields) spreadsheet_id title (folder_id (session w)),
           World (session w) (calls w ++ [Ev h create])
                 (stdout w ++ [LCreated spreadsheet_id]))) as Hrun.
  { unfold create_spreadsheet. step. fold h. fold create.
    rewrite Hcreate. cbn [py_get]. rewrite Hnone. reflexivity. }
  unfold issued. rewrite Hrun. cbn [fst snd calls stdout].
  rewrite drop_app_length. split; [reflexivity|]. split; [reflexivity|]. split.
  - intros res Hres. exact (created_without_folder _ _ _ _ _ Hnone Hres).
  - intros Hp Hs. unfold created. cbn [py_get]. rewrite Hp, Hs, Hnone. reflexivity.
Qed.

Lemma create_spreadsheet_without_folder_witness :
  issued (create_spreadsheet sheetless_remote "Budget") idle =
    [Ev 1%nat (create_request "Budget")] /\
  fst (create_spreadsheet sheetless_remote "Budget" idle) =
    Ok (JObj [("spreadsheetId", JStr "abc123"); ("title", JStr "Budget");
              ("sheets", JArr []); ("folder", JStr "root")]).
Proof.
  pose proof (create_spreadsheet_without_folder sheetless_remote idle "Budget"
                [("spreadsheetId", JStr "abc123")] (or_introl eq_refl) eq_refl)
    as (Hissued & _ & _ & Hres).
  split; [exact Hissued | exact (Hres eq_refl eq_refl)].
Defined.

(** X10. With a working folder, [create_spreadsheet] issues three requests
    in this order: the create request on the Sheets client, then on the
    Drive client the read of the new file's parents and the move, which adds
    the working folder and removes the comma-separated list of the parents
    just read (the empty string when the file reports none).  When the move
    is accepted the confirmation line is printed. *)
Theorem create_spreadsheet_moves_new_file
    (api : remote) (w : world) (title f : string)
    (spreadsheet spreadsheet_id : json)
    (file : list (string * json)) (parents : list string) :
  let sheets := sheets_service (session w) in
  let drive := drive_service (session w) in
  let create :=
    Ev sheets
       (SpreadsheetsCreate (JObj [("properties", JObj [("title", JStr title)])])
          "spreadsheetId,properties,sheets") in
  let read := Ev drive (FilesGet spreadsheet_id "parents") in
  let move :=
    Ev drive (FilesUpdate spreadsheet_id f (String.concat "," parents)
                "id, parents") in
  nonempty (folder_id (session w)) = Some f ->
  api (calls w) sheets (ev_call create) = Ok spreadsheet ->
  py_get spreadsheet "spreadsheetId" JNull = Ok spreadsheet_id ->
  api (calls w ++ [create]) drive (ev_call read) = Ok (JObj file) ->
  (assoc "parents" file = None /\ parents = [] \/
   assoc "parents" file = Some (JArr (map JStr parents))) ->
  issued (create_spreadsheet api title) w = [create; read; move] /\
  fst (create_spreadsheet api title w) =
    created spreadsheet spreadsheet_id title (folder_id (session w)) /\
  (forall moved,
     api (calls w ++ [create; read]) drive (ev_call move) = Ok moved ->
     stdout (snd (create_spreadsheet api title w)) =
       stdout w ++ [LCreated spreadsheet_id; LMoved f]).
Proof.
  intros sheets drive create read move Hf Hcreate Hid Hread Hparents.
  cbn [ev_call create read move] in Hcreate, Hread |- *.
  assert (result_bind (py_get (JObj file) "parents" (JArr []))
            (fun p => py_join "," p) = Ok (String.concat "," parents)) as Hjoin.
  { cbn [py_get result_bind]. unfold py_join.
    destruct Hparents as [[-> ->] | ->]; cbn [py_iter result_bind].
    - reflexivity.
    - apply join_strs_concat. }
  unfold issued.
  rewrite (create_spreadsheet_run api w title f _ _ Hf Hcreate Hid).
  unfold move_to_folder, just_created, create_request. step.
  fold sheets drive. fold create. rewrite Hread, Hjoin.
  cbn [calls session stdout]. fold read.
  rewrite <- !app_assoc. cbn [app].
  destruct (api (calls w ++ [create; read]) drive _) as [moved|e];
    cbn [fst snd calls stdout]; rewrite drop_app_length;
    (split; [reflexivity|]); (split; [reflexivity|]).
  - intros _ _. reflexivity.
  - discriminate.
Qed.

Lemma create_spreadsheet_moves_new_file_witness :
  issued (create_spreadsheet moving_remote "Budget") in_folder =
    [Ev 1%nat (create_request "Budget");
     Ev 2%nat (FilesGet (JStr "s-1") "parents");
     Ev 2%nat (FilesUpdate (JStr "s-1") "F1" "root0" "id, parents")] /\
  stdout (snd (create_spreadsheet moving_remote "Budget" in_folder)) =
    [LCreated (JStr "s-1"); LMoved "F1"].
Proof.
  pose proof (create_spreadsheet_moves_new_file moving_remote in_folder "Budget"
                "F1" new_spreadsheet (JStr "s-1")
                [("parents", JArr [JStr "root0"])] ["root0"]
                eq_refl eq_refl eq_refl eq_refl (or_intror eq_refl))
    as (Hissued & _ & Hout).
  split; [exact Hissued | exact (Hout _ eq_refl)].
Defined.

(** X11. When the parents of the new file cannot be read (the read is
    refused, or the parents are not a list of strings), no move request is
    issued: the Drive client sees the read only, a warning is printed, and
    [create_spreadsheet] still returns its result. *)
Theorem create_spreadsheet_skips_move_without_parents
    (api : remote) (w : world) (title f : string)
    (spreadsheet spreadsheet_id : json) (e : exn) :
  let sheets := sheets_service (session w) in
  let drive := drive_service (session w) in
  let create :=
    Ev sheets
       (SpreadsheetsCreate (JObj [("properties", JObj [("title", JStr title)])])
          "spreadsheetId,properties,sheets") in
  let read := Ev drive (FilesGet spreadsheet_id "parents") in
  nonempty (folder_id (session w)) = Some f ->
  api (calls w) sheets (ev_call create) = Ok spreadsheet ->
  py_get spreadsheet "spreadsheetId" JNull = Ok spreadsheet_id ->
  (api (calls w ++ [create]) drive (ev_call read) = Raise e \/
   exists file,
     api (calls w ++ [create]) drive (ev_call read) = Ok file /\
     result_bind (py_get file "parents" (JArr [])) (fun p => py_join "," p)
       = Raise e) ->
  create_spreadsheet api title w =
    (created spreadsheet spreadsheet_id title (folder_id (session w)),
     World (session w) (calls w ++ [create; read])
           (stdout w ++ [LCreated spreadsheet_id; LMoveWarning e])).
Proof.
  intros sheets drive create read Hf Hcreate Hid Hfail.
  cbn [ev_call create read] in Hcreate, Hfail.
  rewrite (create_spreadsheet_run api w title f _ _ Hf Hcreate Hid).
  unfold move_to_folder, just_created, create_request. step.
  fold sheets drive. fold create.
  destruct Hfail as [Hread | (file & Hread & Hjoin)].
  - rewrite Hread. cbn [calls session stdout]. fold read.
    now rewrite <- !app_assoc.
  - rewrite Hread, Hjoin. cbn [calls session stdout]. fold read.
    now rewrite <- !app_assoc.
Qed.

Lemma create_spreadsheet_skips_move_without_parents_witness :
  create_spreadsheet parentless_remote "Budget" in_folder =
    (Ok (JObj [("spreadsheetId", JStr "s-1"); ("title", JStr "Budget");
               ("sheets", JArr [JStr "Sheet1"]); ("folder", JStr "F1")]),
     World (session in_folder)
       [Ev 1%nat (create_request "Budget");
        Ev 2%nat (FilesGet (JStr "s-1") "parents")]
       [LCreated (JStr "s-1"); LMoveWarning (RemoteError "403")]).
Proof.
  apply (create_spreadsheet_skips_move_without_parents parentless_remote
           in_folder "Budget" "F1" new_spreadsheet (JStr "s-1")
           (RemoteError "403") eq_refl eq_refl eq_refl (or_introl eq_refl)).
Defined.

(** ** Adding a sheet tab *)

(** X12. [create_sheet] sends one [addSheet] request with the title and
    reads the properties of the first reply: the result carries their
    ['sheetId'] and ['title'], their ['index'] or [None] when there is
    none, and the spreadsheet id that was passed in.  A response with an
    empty reply list makes the tool raise [IndexError] after the sheet was
    requested. *)
Theorem create_sheet_reads_first_reply
    (api : remote) (w : world) (spreadsheet_id title : string)
    (response : list (string * json)) :
  let h := sheets_service (session w) in
  let add :=
    SpreadsheetsBatchUpdate spreadsheet_id
      (JObj [("requests", JArr [
         JObj [("addSheet",
                JObj [("properties", JObj [("title", JStr title)])])]])]) in
  let w' := World (session w) (calls w ++ [Ev h add]) (stdout w) in
  api (calls w) h add = Ok (JObj response) ->
  (forall (first : json) (more : list json) (props : list (string * json))
          (sheet_id new_title : json),
     assoc "replies" response = Some (JArr (first :: more)) ->
     (added <-- getitem first "addSheet"; getitem added "properties")%res
       = Ok (JObj props) ->
     assoc "sheetId" props = Some sheet_id ->
     assoc "title" props = Some new_title ->
     create_sheet api spreadsheet_id title w =
       (Ok (JObj [("sheetId", sheet_id);
                  ("title", new_title);
                  ("index", default JNull (assoc "index" props));
                  ("spreadsheetId", JStr spreadsheet_id)]), w')) /\
  (assoc "replies" response = Some (JArr []) ->
   create_sheet api spreadsheet_id title w = (Raise IndexError, w')).
Proof.
  intros h add w' Hadd. split.
  - intros first more props sheet_id new_title Hreplies Hprops Hid Htitle.
    unfold create_sheet. step. fold h. fold add. rewrite Hadd.
    cbn [getitem result_bind]. rewrite Hreplies. cbn [getindex nth_error result_bind].
    destruct (getitem first "addSheet") as [added|e]; cbn in Hprops |- *;
      [|discriminate].
    rewrite Hprops. cbn. rewrite Hid, Htitle. cbn.
    now destruct (assoc "index" props).
  - intros Hreplies.
    unfold create_sheet. step. fold h. fold add. rewrite Hadd.
    cbn [getitem result_bind]. now rewrite Hreplies.
Qed.

Lemma create_sheet_reads_first_reply_witness :
  create_sheet office_remote "abc123" "Notes" idle =
    (Ok (JObj [("sheetId", JInt 42); ("title", JStr "Notes"); ("index", JInt 3);
               ("spreadsheetId", JStr "abc123")]),
     World (session idle) [Ev 1%nat (add_sheet_request "abc123" "Notes")] []) /\
  create_sheet silent_remote "abc123" "Notes" idle =
    (Raise IndexError,
     World (session idle) [Ev 1%nat (add_sheet_request "abc123" "Notes")] []).
Proof.
  split.
  - apply (proj1 (create_sheet_reads_first_reply office_remote idle "abc123"
                    "Notes" _ eq_refl)
             _ [] [("sheetId", JInt 42); ("title", JStr "Notes"); ("index", JInt 3)]
             (JInt 42) (JStr "Notes") eq_refl eq_refl eq_refl eq_refl).
  - apply (proj2 (create_sheet_reads_first_reply silent_remote idle "abc123"
                    "Notes" _ eq_refl) eq_refl).
Defined.

(** ** Listing spreadsheets *)

(** X13. [list_spreadsheets] sends one Drive listing, newest first.  With a
    working folder the query is the spreadsheet mime-type filter restricted
    to that folder; without one ([None] or the empty string) it is the bare
    filter.  The listed files are returned in order as [{id, title}] pairs,
    the title being the file's ['name']; a response without ['files'] gives
    an empty list. *)
Theorem list_spreadsheets_query_and_result
    (api : remote) (w : world) (response : list (string * json))
    (found entries : list json) :
  let drive := drive_service (session w) in
  let query :=
    match folder_id (session w) with
    | Some f =>
        if String.eqb f "" then "mimeType='application/vnd.google-apps.spreadsheet'"
        else "mimeType='application/vnd.google-apps.spreadsheet' and '"
             +:+ f +:+ "' in parents"
    | None => "mimeType='application/vnd.google-apps.spreadsheet'"
    end in
  let listing := FilesList query "drive" "files(id, name)" "modifiedTime desc" in
  api (calls w) drive listing = Ok (JObj response) ->
  (assoc "files" response = None /\ found = [] \/
   assoc "files" response = Some (JArr found)) ->
  Forall2 listed_as found entries ->
  issued (list_spreadsheets api) w = [Ev drive listing] /\
  fst (list_spreadsheets api w) = Ok (JArr entries).
Proof.
  intros drive query listing Hlist Hfiles Hentries.
  assert (map_result
            (fun sheet => (i <-- getitem sheet "id";
                           n <-- getitem sheet "name";
                           Ok (JObj [("id", i); ("title", n)]))%res) found
          = Ok entries) as Hmap.
  { apply map_result_Forall2. eapply Forall2_impl; [exact Hentries|].
    intros file entry (id & name & Hid & Hname & ->). cbn beta.
    now rewrite Hid, Hname. }
  assert (match assoc "files" response with
          | Some x => x
          | None => JArr []
          end = JArr found) as Hfound.
  { destruct Hfiles as [[-> ->] | ->]; reflexivity. }
  unfold issued, list_spreadsheets. step. fold drive.
  subst listing query.
  destruct (folder_id (session w)) as [f|]; cbn [nonempty].
  - destruct (String.eqb f ""); cbn [calls session stdout];
      cbn beta iota in Hlist;
      try change ("mimeType='application/vnd.google-apps.spreadsheet'"
                  +:+ " and '" +:+ f +:+ "' in parents")
        with ("mimeType='application/vnd.google-apps.spreadsheet' and '"
              +:+ f +:+ "' in parents");
      rewrite Hlist;
      cbn [py_get result_bind fst snd calls]; rewrite Hfound;
      cbn [py_iter result_bind]; rewrite Hmap, drop_app_length; now split.
  - cbn [calls session stdout]. rewrite Hlist.
    cbn [py_get result_bind fst snd calls]. rewrite Hfound.
    cbn [py_iter result_bind]. rewrite Hmap, drop_app_length. now split.
Qed.

Lemma list_spreadsheets_query_and_result_witness :
  issued (list_spreadsheets office_remote) in_folder =
    [Ev 2%nat
       (FilesList
          "mimeType='application/vnd.google-apps.spreadsheet' and 'F1' in parents"
          "drive" "files(id, name)" "modifiedTime desc")] /\
  fst (list_spreadsheets office_remote in_folder) =
    Ok (JArr [JObj [("id", JStr "s-2"); ("title", JStr "Plan")];
              JObj [("id", JStr "s-1"); ("title", JStr "Budget")]]).
Proof.
  apply (list_spreadsheets_query_and_result office_remote in_folder
           _ _ _ eq_refl (or_intror eq_refl)).
  repeat constructor; eexists _, _; repeat split.
Defined.

(** ** Spreadsheet info and sheet list *)

Lemma sheet_info_title (s info : json) :
  sheet_info s = Ok info ->
  exists t, title_of s = Ok t /\ getitem info "title" = Ok t.
Proof.
  unfold sheet_info.
  destruct (title_of s) as [t|e]; cbn; [|discriminate].
  destruct (sheet_id_of s) as [i|e]; cbn; [|discriminate].
  destruct (getitem s "properties") as [p|e]; cbn; [|discriminate].
  destruct (py_get p "gridProperties" _) as [g|e]; cbn; [|discriminate].
  intros [= <-]. now exists t.
Qed.

Lemma sheet_infos_titles (sheets infos : list json) :
  map_result sheet_info sheets = Ok infos ->
  exists titles,
    map_result title_of sheets = Ok titles /\
    Forall2 (fun info t => getitem info "title" = Ok t) infos titles.
Proof.
  intros H. apply map_result_Forall2 in H.
  induction H as [|s info sheets infos Hs _ (titles & Hmap & Hall)].
  - exists []. split; [reflexivity | constructor].
  - destruct (sheet_info_title _ _ Hs) as (t & Ht & Hinfo).
    exists (t :: titles). split.
    + cbn. rewrite Ht. cbn. now rewrite Hmap.
    + now constructor.
Qed.

(** X14. On metadata that has a ['sheets'] entry, whenever
    [get_spreadsheet_info] can build its report, [list_sheets] succeeds as
    well, and it returns the titles of the reported sheets, one for one and
    in the same order. *)
Theorem list_sheets_agrees_with_info
    (api : remote) (w : world) (spreadsheet_id : string)
    (spreadsheet ss title : json) (infos : list json) :
  api (calls w) (sheets_service (session w)) (SpreadsheetsGet spreadsheet_id)
    = Ok spreadsheet ->
  getitem spreadsheet "sheets" = Ok ss ->
  spreadsheet_info spreadsheet = Ok (JObj [("title", title); ("sheets", JArr infos)]) ->
  exists titles,
    fst (list_sheets api spreadsheet_id w) = Ok (JArr titles) /\
    Forall2 (fun info t => getitem info "title" = Ok t) infos titles.
Proof.
  intros Hmeta Hss Hinfo.
  destruct spreadsheet as [| | | | |fields]; try discriminate.
  cbn in Hss. destruct (assoc "sheets" fields) as [x|] eqn:Hsheets; [|discriminate].
  injection Hss as ->.
  unfold spreadsheet_info in Hinfo. cbn [py_get result_bind] in Hinfo.
  rewrite Hsheets in Hinfo.
  destruct (py_get _ "title" _) as [t|e]; cbn in Hinfo; [|discriminate].
  destruct (py_iter ss) as [l|e] eqn:Hit; cbn in Hinfo; [|discriminate].
  destruct (map_result sheet_info l) as [reported|e] eqn:Hmap; cbn in Hinfo;
    [|discriminate].
  injection Hinfo as _ <-.
  destruct (sheet_infos_titles _ _ Hmap) as (titles & Htitles & Hall).
  exists titles. split; [|assumption].
  unfold list_sheets. step. rewrite Hmeta. cbn. rewrite Hsheets. cbn.
  rewrite Hit. cbn. now rewrite Htitles.
Qed.

Lemma list_sheets_agrees_with_info_witness :
  exists titles,
    fst (list_sheets sparse_remote "abc123" idle) = Ok (JArr titles) /\
    Forall2 (fun info t => getitem info "title" = Ok t)
      [JObj [("title", JStr "Sheet1"); ("sheetId", JInt 0);
             ("gridProperties", JObj [])]]
      titles.
Proof.
  apply (list_sheets_agrees_with_info sparse_remote idle "abc123" sparse_book
           _ (JStr "Unknown") _ eq_refl eq_refl eq_refl).
Defined.

(** ** Start-up *)

(** X15. A session context built at start-up holds the two clients built
    from the resolved credentials, and its folder id is [None] exactly when
    no working folder is configured; it is never the empty string, so the
    truth test the tools apply to it is the test for [None]. *)
Theorem lifespan_builds_context
    (cfg : config) (lib : google_auth) (d d' : disk) (ctx : SpreadsheetContext) :
  spreadsheet_lifespan cfg lib d = (Ok ctx, d') ->
  (exists creds,
     resolve_credentials cfg lib d = (Ok creds, d') /\
     sheets_service ctx = build lib "sheets" "v4" creds /\
     drive_service ctx = build lib "drive" "v3" creds) /\
  (DRIVE_FOLDER_ID cfg = "" -> folder_id ctx = None) /\
  (DRIVE_FOLDER_ID cfg <> "" -> folder_id ctx = Some (DRIVE_FOLDER_ID cfg)) /\
  folder_id ctx <> Some "" /\
  nonempty (folder_id ctx) = folder_id ctx.
Proof.
  unfold spreadsheet_lifespan.
  destruct (resolve_credentials cfg lib d) as [[creds|e] d1]; [|discriminate].
  intros [= <- <-]. cbn [sheets_service drive_service folder_id nonempty].
  split; [now exists creds|].
  destruct (String.eqb_spec (DRIVE_FOLDER_ID cfg) "") as [Heq|Hne].
  - repeat split; try reflexivity; congruence.
  - repeat split; try reflexivity; try congruence.
    cbn. destruct (String.eqb_spec (DRIVE_FOLDER_ID cfg) ""); congruence.
Qed.

Lemma lifespan_builds_context_witness :
  folder_id {| sheets_service := 1%nat; drive_service := 2%nat;
               folder_id := Some "F1" |} = Some (DRIVE_FOLDER_ID folder_config).
Proof.
  apply (proj1 (proj2 (proj2
    (lifespan_builds_context folder_config sample_auth cached_disk cached_disk
       {| sheets_service := 1%nat; drive_service := 2%nat;
          folder_id := Some "F1" |}
       ltac:(vm_compute; reflexivity))))).
  discriminate.
Defined.

Lemma service_account_creds_reads_key_only
    (cfg : config) (lib : google_auth) (d d' : disk) (path content : string) :
  path <> SERVICE_ACCOUNT_PATH cfg ->
  write_file d path content = Ok d' ->
  service_account_creds cfg lib d' = service_account_creds cfg lib d.
Proof.
  intros Hne. unfold write_file.
  destruct (unwritable d !! path); [discriminate|]. intros [= <-].
  unfold service_account_creds. cbn [files]. now rewrite lookup_insert_ne.
Qed.

(** X16. The token saved by a start-up that had to log in is what the next
    start-up runs on: provided the token cache can be written, the saved
    text loads back as the same, valid credentials and the token cache is
    not the service-account key file, the first resolution returns the new
    credentials and the second returns them again without a new login and
    writes nothing. *)
Theorem saved_token_serves_next_start
    (cfg : config) (lib : google_auth) (d : disk)
    (cached : option user_credentials) (c : user_credentials) :
  let d1 := snd (resolve_credentials cfg lib d) in
  TOKEN_PATH cfg <> SERVICE_ACCOUNT_PATH cfg ->
  unwritable d !! TOKEN_PATH cfg = None ->
  service_account_creds cfg lib d = None ->
  cached_creds cfg lib d = Ok cached ->
  (forall c0, cached = Some c0 -> valid c0 = false) ->
  fresh_creds cfg lib cached d = Ok c ->
  from_authorized_user_info lib (to_json lib c) = Ok c ->
  valid c = true ->
  fst (resolve_credentials cfg lib d) = Ok (User c) /\
  writes d1 = writes d ++ [(TOKEN_PATH cfg, to_json lib c)] /\
  resolve_credentials cfg lib d1 = (Ok (User c), d1).
Proof.
  intros d1 Hpaths Hopen Hsa Hcached Hinvalid Hfresh Hload Hvalid. subst d1.
  rewrite (oauth_login cfg lib d cached Hsa Hcached Hinvalid), Hfresh.
  destruct (write_file d (TOKEN_PATH cfg) (to_json lib c)) as [d1|e] eqn:Hsave.
  - cbn [fst snd]. split; [reflexivity|].
    pose proof (service_account_creds_reads_key_only cfg lib d d1 _ _ Hpaths Hsave)
      as Hkey.
    unfold write_file in Hsave. rewrite Hopen in Hsave. injection Hsave as <-.
    split; [reflexivity|].
    apply valid_cache_writes_nothing.
    + now rewrite Hkey.
    + unfold cached_creds. cbn [files].
      rewrite lookup_insert_eq, Hload. reflexivity.
    + assumption.
  - unfold write_file in Hsave. rewrite Hopen in Hsave. discriminate.
Qed.

Lemma saved_token_serves_next_start_witness :
  resolve_credentials default_config faithful_auth
    (snd (resolve_credentials default_config faithful_auth first_run_disk))
  = (Ok (User granted),
     snd (resolve_credentials default_config faithful_auth first_run_disk)).
Proof.
  apply (proj2 (proj2 (saved_token_serves_next_start default_config faithful_auth
                  first_run_disk None granted
                  ltac:(discriminate)
                  ltac:(vm_compute; reflexivity)
                  ltac:(vm_compute; reflexivity)
                  ltac:(vm_compute; reflexivity)
                  ltac:(discriminate)
                  ltac:(vm_compute; reflexivity)
                  eq_refl eq_refl))).
Defined.

(** X17. A corrupt token cache is fatal: when the cache file exists and
    cannot be loaded, start-up fails with that error; no refresh or
    interactive login is attempted in its place and nothing is written. *)
Theorem unreadable_token_cache_is_fatal
    (cfg : config) (lib : google_auth) (d : disk) (content : string) (e : exn) :
  service_account_creds cfg lib d = None ->
  files d !! TOKEN_PATH cfg = Some content ->
  from_authorized_user_info lib content = Raise e ->
  resolve_credentials cfg lib d = (Raise e, d) /\
  spreadsheet_lifespan cfg lib d = (Raise e, d).
Proof.
  intros Hsa Hfile Hload.
  assert (resolve_credentials cfg lib d = (Raise e, d)) as Hresolve.
  { unfold resolve_credentials, oauth_creds, cached_creds.
    now rewrite Hsa, Hfile, Hload. }
  split; [assumption|]. unfold spreadsheet_lifespan. now rewrite Hresolve.
Qed.

Lemma unreadable_token_cache_is_fatal_witness :
  spreadsheet_lifespan default_config strict_auth corrupt_cache_disk =
    (Raise (RemoteError "malformed token file"), corrupt_cache_disk).
Proof.
  apply (proj2 (unreadable_token_cache_is_fatal default_config strict_auth
                  corrupt_cache_disk "{" (RemoteError "malformed token file")
                  ltac:(vm_compute; reflexivity)
                  ltac:(vm_compute; reflexivity)
                  eq_refl)).
Defined.

(** ** Copying a sheet: a response without the new id *)

(** X18. When the copy response has a title other than the requested one
    but no ['sheetId'], [copy_sheet] raises [KeyError] after the copy was
    made: the rename request is not issued and the copy is not undone. *)
Theorem copy_sheet_needs_new_sheet_id
    (api : remote) (w : world)
    (src_spreadsheet src_sheet dst_spreadsheet dst_sheet : string)
    (src src_sheet_id title : json) (copy_result : list (string * json)) :
  let h := sheets_service (session w) in
  let lookup := Ev h (SpreadsheetsGet src_spreadsheet) in
  let copy :=
    Ev h (SheetsCopyTo src_spreadsheet src_sheet_id
            (JObj [("destinationSpreadsheetId", JStr dst_spreadsheet)])) in
  api (calls w) h (ev_call lookup) = Ok src ->
  find_sheet_id src src_sheet = Ok src_sheet_id ->
  src_sheet_id <> JNull ->
  api (calls w ++ [lookup]) h (ev_call copy) = Ok (JObj copy_result) ->
  assoc "title" copy_result = Some title ->
  title <> JStr dst_sheet ->
  assoc "sheetId" copy_result = None ->
  copy_sheet api src_spreadsheet src_sheet dst_spreadsheet dst_sheet w =
    (Raise (KeyError "sheetId"),
     World (session w) (calls w ++ [lookup; copy]) (stdout w)).
Proof.
  intros h lookup copy Hmeta Hfound Hid Hcopy Htitle Hne Hnoid.
  cbn [ev_call lookup copy] in Hmeta, Hcopy.
  rewrite (copy_sheet_found api w _ _ _ _ Hmeta Hfound Hid
             dst_spreadsheet dst_sheet h _ _ eq_refl eq_refl eq_refl).
  fold lookup. rewrite Hcopy. cbn [py_in getitem]. rewrite Htitle, Hnoid.
  apply py_eq_str_false in Hne. rewrite Hne.
  unfold after. cbn [calls session stdout]. fold copy.
  now rewrite <- app_assoc.
Qed.

Lemma copy_sheet_needs_new_sheet_id_witness :
  copy_sheet idless_copy_remote "abc123" "Sheet1" "def456" "Archive" idle =
    (Raise (KeyError "sheetId"),
     World (session idle)
       [Ev 1%nat (SpreadsheetsGet "abc123");
        Ev 1%nat (SheetsCopyTo "abc123" (JInt 13)
                    (JObj [("destinationSpreadsheetId", JStr "def456")]))]
       []).
Proof.
  apply (copy_sheet_needs_new_sheet_id idless_copy_remote idle
           "abc123" "Sheet1" "def456" "Archive" sample_book (JInt 13)
           (JStr "Copy of Sheet1") [("title", JStr "Copy of Sheet1")]
           eq_refl eq_refl ltac:(discriminate) eq_refl eq_refl
           ltac:(discriminate) eq_refl).
Defined.
